(** * Next.js framework adapter of firebase-tools: backend analysis and static export

    A shallow embedding of [src/frameworks/next/index.ts]:

    - [build] (lines 92-239): after the framework's own build has run, read the
      build manifests, accumulate the reasons why a backend (Cloud Function) is
      needed, and translate headers, redirects and rewrites;
    - [codegenPublicDirectory] (the source's [ɵcodegenPublicDirectory], lines
      263-385): copy the prerendered pages into the static hosting directory.

    JavaScript objects used as dictionaries are association lists in iteration
    order ([Object.keys], [Object.entries] and [Object.values] enumerate them
    in that order).  A function that can throw returns a [result].  The
    manifests are typed files of the build output; the files the exporter
    copies live in a [FileSystem] that is passed along. *)

From Stdlib Require Import ZArith Lia Ascii String.
From stdpp Require Import base option list strings pretty gmap.

Local Open Scope string_scope.
Local Open Scope list_scope.

(** ** Errors and the error monad *)

(** The manifest files the adapter reads from the build-output directory. *)
Inductive ManifestName :=
| MiddlewareManifestJson   (* server/middleware-manifest.json *)
| ExportMarkerJson         (* export-marker.json *)
| ImagesManifestJson       (* images-manifest.json *)
| AppPathRoutesManifestJson (* app-path-routes-manifest.json *)
| PrerenderManifestJson    (* prerender-manifest.json *)
| PagesManifestJson        (* server/pages-manifest.json *)
| RoutesManifestJson.      (* routes-manifest.json *)

Inductive Error :=
| ManifestMissing (f : ManifestName)     (* readJSON: ENOENT *)
| ManifestParseError (f : ManifestName)  (* readJSON: invalid JSON *)
| ExportFileMissing (path : string)      (* copyFile / copy: ENOENT *)
| NotAFile (path : string).              (* copyFile on a directory *)

Inductive result (A : Type) :=
| Ok (a : A)
| Err (e : Error).
Arguments Ok {A} a.
Arguments Err {A} e.

#[global] Instance result_ret : MRet result := fun _ a => Ok a.
#[global] Instance result_bind : MBind result := fun _ _ f r =>
  match r with
  | Ok a => f a
  | Err e => Err e
  end.

(** ** JavaScript objects used as dictionaries *)

Definition obj (V : Type) := list (string * V).

Definition keys {V} (o : obj V) : list string := o.*1.
Definition values {V} (o : obj V) : list V := o.*2.
Definition entries {V} (o : obj V) : list (string * V) := o.

(** A parsed JSON object has each key once. *)
Definition wf_obj {V} (o : obj V) : Prop := NoDup (keys o).

(** [Array.prototype.includes] on strings. *)
Definition includes (l : list string) (s : string) : bool :=
  existsb (String.eqb s) l.

(** ** The framework's manifests (types of [next/dist/build] and friends) *)

Record MiddlewareMatcher := { regexp : string }.

Record MiddlewareInfo := { matchers : list MiddlewareMatcher }.

Record MiddlewareManifest := { middleware : obj MiddlewareInfo }.

(** [export-marker.json]; the field is read untyped, so it may be absent. *)
Record ExportMarker := { isNextImageImported : option bool }.

(** [images-manifest.json]; [unoptimized] is read untyped: it may be absent
    ([None]), [true] or [false]. *)
Record ImageConfig := { unoptimized : option bool }.

Record ImagesManifest := { images : ImageConfig }.

(** [fallback: string | null | false] of a dynamic route. *)
Inductive Fallback :=
| FallbackFalse
| FallbackNull
| FallbackPage (html : string).

(** [initialRevalidateSeconds: number | false]: [None] is [false]. *)
Record SsgRoute := {
  initialRevalidateSeconds : option Z;
  dataRoute : string;
}.

Record DynamicSsgRoute := { fallback : Fallback }.

Record PrerenderManifest := {
  routes : obj SsgRoute;
  dynamicRoutes : obj DynamicSsgRoute;
}.

Definition PagesManifest := obj string.

Definition AppPathRoutesManifest := obj string.

(** Rules of [routes-manifest.json] ([Manifest] of [./interfaces]): each has a
    [source] pattern and the compiled [regex], and may carry [has] and
    [missing] conditions. *)
Record RouteHas := {
  rh_type : string;
  rh_key : option string;
  rh_value : option string;
}.

Module Header.
Record t := {
  source : string;
  regex : string;
  headers : list (string * string);
  has : option (list RouteHas);
  missing : option (list RouteHas);
}.
End Header.

Module Redirect.
Record t := {
  source : string;
  regex : string;
  destination : string;
  statusCode : Z;
  has : option (list RouteHas);
  missing : option (list RouteHas);
}.
End Redirect.

Module Rewrite.
Record t := {
  source : string;
  regex : string;
  destination : string;
  has : option (list RouteHas);
  missing : option (list RouteHas);
}.
End Rewrite.

(** [rewrites] is either a plain array or an object of three optional phases. *)
Inductive Rewrites :=
| SimpleList (l : list Rewrite.t)
| PhasedRewrites (before after fallbacks : option (list Rewrite.t)).

(** [Array.isArray] and the optional fields of the phased form, which a plain
    array does not have. *)
Definition isArray (rw : Rewrites) : bool :=
  match rw with
  | SimpleList _ => true
  | PhasedRewrites _ _ _ => false
  end.

Definition afterFiles (rw : Rewrites) : option (list Rewrite.t) :=
  match rw with
  | SimpleList _ => None
  | PhasedRewrites _ afterFiles _ => afterFiles
  end.

Definition fallbackPhase (rw : Rewrites) : option (list Rewrite.t) :=
  match rw with
  | SimpleList _ => None
  | PhasedRewrites _ _ fallbackPhase => fallbackPhase
  end.

Definition beforeFiles (rw : Rewrites) : option (list Rewrite.t) :=
  match rw with
  | SimpleList _ => None
  | PhasedRewrites beforeFiles _ _ => beforeFiles
  end.

Record Manifest := {
  headers : option (list Header.t);
  redirects : option (list Redirect.t);
  rewrites : option Rewrites;
}.

(** ** The build-output directory, as far as the manifests go *)

Inductive file (T : Type) :=
| Missing
| Malformed
| Content (v : T).
Arguments Missing {T}.
Arguments Malformed {T}.
Arguments Content {T} v.

Record BuildOutput := {
  middleware_manifest_json : file MiddlewareManifest;
  export_marker_json : file ExportMarker;
  images_manifest_json : file ImagesManifest;
  app_path_routes_manifest_json : file AppPathRoutesManifest;
  prerender_manifest_json : file PrerenderManifest;
  pages_manifest_json : file PagesManifest;
  routes_manifest_json : file Manifest;
}.




(** Modelled from the spec: [readJSON] of [../utils] is not among the sources.
    Section 4.1: it fails with [ManifestMissing] if the file does not exist and
    with [ManifestParseError] if the content is not valid structured data. *)
Definition readJSON {T} (name : ManifestName) (f : file T) : result T :=
  match f with
  | Missing => Err (ManifestMissing name)
  | Malformed => Err (ManifestParseError name)
  | Content v => Ok v
  end.

(** Modelled from the spec: [fileExistsSync] of [../../fsutils] is not among
    the sources.  Section 4.1 lets a manifest documented as optional default to
    an empty structure when its file does not exist; this is the test for
    that. *)
Definition fileExistsSync {T} (f : file T) : bool :=
  match f with
  | Missing => false
  | _ => true
  end.

(** ** The rules emitted for the hosting configuration *)

Record HostingHeader := {
  hh_source : string;
  hh_headers : list (string * string);
}.

Record HostingRedirect := {
  hr_source : string;
  hr_destination : string;
  hr_type : Z;
}.

Record HostingRewrite := {
  hw_source : string;
  hw_destination : string;
}.

Record BuildResult := {
  wantsBackend : bool;
  br_headers : list HostingHeader;
  br_redirects : list HostingRedirect;
  br_rewrites : list HostingRewrite;
}.

(** What a run of [build] leaves behind: the returned value, the local
    [reasonsForBackend] at the end of the run, and the lines written with
    [console.log]. *)
Record BuildRun := {
  returned : BuildResult;
  reasonsForBackend : list string;
  console : list string;
}.

(** Modelled from the spec: [getNextjsRewritesToUse] of [./utils] is not among
    the sources.  Section 3: rewrites may be partitioned into phases, and only
    the unphased (or before-files) form is representable downstream. *)
Definition getNextjsRewritesToUse (rw : Rewrites) : list Rewrite.t :=
  match rw with
  | SimpleList l => l
  | PhasedRewrites _ _ _ => default [] (beforeFiles rw)
  end.

(** JavaScript truthiness of the values the code tests. *)
Definition truthy_bool (b : option bool) : bool := default false b.

Definition truthy_number (n : option Z) : bool :=
  match n with
  | Some z => negb (z =? 0)%Z
  | None => false
  end.

(** [xs?.length] as a condition: true for a present, non-empty array. *)
Definition truthy_length {A} (xs : option (list A)) : bool :=
  match xs with
  | Some (_ :: _) => true
  | _ => false
  end.

Definition push (reasons : list string) (reason : string) : list string :=
  reasons ++ [reason].

(** [if (xs.length > 0) { for (const x of xs) reasons.push(reason(x)) }]. *)
Definition push_each {A} (reason : A -> string) (reasons : list string) (xs : list A)
    : list string :=
  if bool_decide (0 < length xs)
  then foldl (fun reasons x => push reasons (reason x)) reasons xs
  else reasons.

(** [if (cond) reasons.push(reason)]. *)
Definition push_when (cond : bool) (reasons : list string) (reason : string) : list string :=
  if cond then push reasons reason else reasons.

Definition DEFAULT_NUMBER_OF_REASONS_TO_LIST : nat := 5.

(** The report printed when a backend is wanted; [debug] is
    [process.env.DEBUG], under which every reason is listed. *)
Definition report (debug : bool) (reasons : list string) : list string :=
  let listed := if debug then reasons else take DEFAULT_NUMBER_OF_REASONS_TO_LIST reasons in
  ["Building a Cloud Function to run this application. This is needed due to:"]
  ++ ((fun reason => " • " +:+ reason) <$> listed)
  ++ (if negb debug && Nat.ltb DEFAULT_NUMBER_OF_REASONS_TO_LIST (length reasons)
      then [" • and " +:+ pretty (length reasons - DEFAULT_NUMBER_OF_REASONS_TO_LIST)
            +:+ " other reasons, use --debug to see more"]
      else [])
  ++ [""].

Definition reservedPages : list string :=
  ["/_app"; "/"; "/_error"; "/_document"; "/404"].

(** ** Strings and paths

    [String.prototype.split] and [endsWith], and the POSIX flavour of Node's
    [path.join] and [path.dirname]. *)

(** [s.split(sep)] for a one-character separator: never empty, and an empty
    piece for each separator at either end or next to another one. *)
Fixpoint split (sep : ascii) (s : string) : list string :=
  match s with
  | EmptyString => [""]
  | String c rest =>
      if Ascii.eqb c sep then "" :: split sep rest
      else match split sep rest with
           | piece :: pieces => String c piece :: pieces
           | [] => [String c ""]
           end
  end.

(** [s.endsWith(suffix)]: the string, or what is left of it after dropping
    some of its first characters, is the suffix. *)
Fixpoint endsWith (s suffix : string) : bool :=
  String.eqb s suffix
  || match s with
     | String _ rest => endsWith rest suffix
     | EmptyString => false
     end.

(** No [/] in the string. *)
Fixpoint slashFree (s : string) : bool :=
  match s with
  | EmptyString => true
  | String c rest => negb (Ascii.eqb c "/"%char) && slashFree rest
  end.

(** An ordinary path segment: not empty, without [/], neither [.] nor [..]. *)
Definition plainSegment (seg : string) : Prop :=
  seg <> "" /\ seg <> "." /\ seg <> ".." /\ slashFree seg = true.

Definition startsWithSlash (s : string) : bool :=
  match s with
  | String c _ => Ascii.eqb c "/"%char
  | EmptyString => false
  end.

(** One step of [normalizeString]: the segments kept so far, last one first. *)
Definition normalizeStep (allowAboveRoot : bool) (kept : list string) (segment : string)
    : list string :=
  if String.eqb segment "" || String.eqb segment "." then kept
  else if String.eqb segment ".." then
    match kept with
    | top :: below =>
        if String.eqb top ".." then (if allowAboveRoot then ".." :: kept else kept)
        else below
    | [] => if allowAboveRoot then [".."] else []
    end
  else segment :: kept.

Definition normalizeString (path : string) (allowAboveRoot : bool) : string :=
  String.concat "/" (rev (foldl (normalizeStep allowAboveRoot) [] (split "/"%char path))).

(** [path.posix.normalize]. *)
Definition normalize (path : string) : string :=
  if String.eqb path "" then "."
  else
    let isAbsolute := startsWithSlash path in
    let trailingSeparator := endsWith path "/" in
    let p := normalizeString path (negb isAbsolute) in
    if String.eqb p "" then
      (if isAbsolute then "/" else if trailingSeparator then "./" else ".")
    else
      let p := if trailingSeparator then p +:+ "/" else p in
      if isAbsolute then "/" +:+ p else p.

(** [path.posix.join(...args)]. *)
Definition join (args : list string) : string :=
  match List.filter (fun arg => negb (String.eqb arg "")) args with
  | [] => "."
  | used => normalize (String.concat "/" used)
  end.

(** The backward scan of [path.posix.dirname] over the indices [i .. 1]: the
    index of the slash that ends the directory part. *)
Fixpoint dirnameEnd (path : string) (i : nat) (matchedSlash : bool) : option nat :=
  match i with
  | O => None
  | S i' =>
      match String.get i path with
      | Some c =>
          if Ascii.eqb c "/"%char then
            (if matchedSlash then dirnameEnd path i' true else Some i)
          else dirnameEnd path i' false
      | None => dirnameEnd path i' matchedSlash
      end
  end.

(** [path.posix.dirname]. *)
Definition dirname (path : string) : string :=
  if String.eqb path "" then "."
  else
    let hasRoot := startsWithSlash path in
    match dirnameEnd path (String.length path - 1) true with
    | None => if hasRoot then "/" else "."
    | Some e => if hasRoot && (e =? 1)%nat then "//" else substring 0 e path
    end.

(** ** The file system the exporter copies in

    Files with their contents and the directories.  The model has the one
    failure the exporter depends on, a copy whose source is not there (or is
    a directory); permissions and the like are outside it. *)
Record FileSystem := {
  files : gmap string string;
  dirs : gset string;
}.

(** [pathExists] of fs-extra. *)
Definition pathExists (fs : FileSystem) (path : string) : bool :=
  bool_decide (is_Some (files fs !! path)) || bool_decide (path ∈ dirs fs).

(** The directory and the directories above it, nearest first. *)
Fixpoint withParents (fuel : nat) (path : string) : list string :=
  match fuel with
  | O => [path]
  | S fuel' =>
      let parent := dirname path in
      if String.eqb parent path then [path] else path :: withParents fuel' parent
  end.

(** [mkdir(path, { recursive: true })]. *)
Definition mkdir (path : string) (fs : FileSystem) : result FileSystem :=
  Ok {| files := files fs;
        dirs := list_to_set (withParents (String.length path) path) ∪ dirs fs |}.

(** [copyFile(src, dest)] of [fs/promises]. *)
Definition copyFile (src dest : string) (fs : FileSystem) : result FileSystem :=
  match files fs !! src with
  | Some content => Ok {| files := <[dest := content]> (files fs); dirs := dirs fs |}
  | None =>
      if bool_decide (src ∈ dirs fs) then Err (NotAFile src) else Err (ExportFileMissing src)
  end.

(** A [for ... of] loop whose body awaits file operations. *)
Fixpoint for_each {A} (l : list A) (body : A -> FileSystem -> result FileSystem)
    (fs : FileSystem) : result FileSystem :=
  match l with
  | [] => Ok fs
  | x :: rest => fs' ← body x fs; for_each rest body fs'
  end.

Definition defaultHtmlFiles : list string := ["index.html"; "404.html"; "500.html"].

(** The body of the loop over the default html files. *)
Definition copyDefaultHtml (sourceDir distDir destDir file : string) (fs : FileSystem)
    : result FileSystem :=
  let pagesPath := join [sourceDir; distDir; "server"; "pages"; file] in
  if pathExists fs pagesPath then copyFile pagesPath (join [destDir; file]) fs
  else
    let appPath := join [sourceDir; distDir; "server"; "app"; file] in
    if pathExists fs appPath then copyFile appPath (join [destDir; file]) fs
    else Ok fs.

(** The file names of a prerendered route: [parts], [partsOrIndex], [htmlPath]
    and [dataPath] of the loop over the routes. *)
Definition parts (path : string) : list string :=
  List.filter (fun it => negb (String.eqb it "")) (split "/"%char path).

Definition partsOrIndex (path : string) : list string :=
  if bool_decide (0 < length (parts path)) then parts path else ["index"].

Definition htmlPath (path : string) : string := join (partsOrIndex path) +:+ ".html".

Definition dataPath (path : string) : string := join (partsOrIndex path) +:+ ".json".

(** ** Sample build outputs

    Concrete manifests and files on which the theorems below are run. *)
Module Sample.

Definition supported_header (h : Header.t) : bool :=
  match Header.has h with
  | None => true
  | Some _ => false
  end.

Definition supported_redirect (r : Redirect.t) : bool :=
  match Redirect.has r with
  | None => true
  | Some _ => false
  end.

Definition supported_rewrite (r : Rewrite.t) : bool :=
  match Rewrite.has r with
  | None => true
  | Some _ => false
  end.

Definition clean (source : string) : string := source.

(** A stand-in for the regular-expression engine: only the pattern [^/$], which
    matches the root path alone. *)
Definition regexp_test (pattern path : string) : bool :=
  String.eqb pattern "^/$" && String.eqb path "/".


Definition cookie : RouteHas :=
  {| rh_type := "cookie"; rh_key := Some "session"; rh_value := None |}.

Definition header (source : string) (conditions : option (list RouteHas)) : Header.t :=
  {| Header.source := source; Header.regex := "^" +:+ source +:+ "$";
     Header.headers := [("x-frame-options", "DENY")];
     Header.has := conditions; Header.missing := None |}.

Definition rewrite (source destination : string) : Rewrite.t :=
  {| Rewrite.source := source; Rewrite.regex := "^" +:+ source +:+ "$";
     Rewrite.destination := destination;
     Rewrite.has := None; Rewrite.missing := None |}.

Definition routesManifest : Manifest :=
  {| headers := Some [header "/a" None; header "/b" (Some [cookie]); header "/c" None];
     redirects := None;
     rewrites := Some (PhasedRewrites None (Some [rewrite "/old" "/new"]) None) |}.

Definition plainRoutesManifest : Manifest :=
  {| headers := None; redirects := None; rewrites := None |}.

(** The root route revalidated every ten seconds, and a page [/about] that is
    in neither route set. *)
Definition prerenderManifest : PrerenderManifest :=
  {| routes := [("/", {| initialRevalidateSeconds := Some 10%Z;
                         dataRoute := "/_next/data/build/index.json" |});
                ("/blog", {| initialRevalidateSeconds := None;
                             dataRoute := "/_next/data/build/blog.json" |})];
     dynamicRoutes := [] |}.

Definition pagesManifest : PagesManifest :=
  [("/_app", "pages/_app.js"); ("/", "pages/index.html"); ("/about", "pages/about.js");
   ("/blog", "pages/blog.html")].

Definition output : BuildOutput :=
  {| middleware_manifest_json := Content {| middleware := [] |};
     export_marker_json := Content {| isNextImageImported := Some false |};
     images_manifest_json := Missing;
     app_path_routes_manifest_json := Missing;
     prerender_manifest_json := Content prerenderManifest;
     pages_manifest_json := Content pagesManifest;
     routes_manifest_json := Content routesManifest |}.

(** A static application: nothing asks for a backend. *)
Definition staticOutput (mm : file MiddlewareManifest) (em : ExportMarker)
    (im : file ImagesManifest) : BuildOutput :=
  {| middleware_manifest_json := mm;
     export_marker_json := Content em;
     images_manifest_json := im;
     app_path_routes_manifest_json := Missing;
     prerender_manifest_json := Content {| routes := []; dynamicRoutes := [] |};
     pages_manifest_json := Content [("/_app", "pages/_app.js")];
     routes_manifest_json := Content plainRoutesManifest |}.

(** One registered middleware, with no matcher. *)
Definition middlewareWithoutMatchers : MiddlewareManifest :=
  {| middleware := [("/", {| matchers := [] |})] |}.

Definition outputWithMiddleware : BuildOutput :=
  staticOutput (Content middlewareWithoutMatchers) {| isNextImageImported := Some false |}
               Missing.

(** The image component is imported, and the images manifest says nothing
    about [unoptimized]. *)
Definition outputWithImages : BuildOutput :=
  staticOutput (Content {| middleware := [] |}) {| isNextImageImported := Some true |}
               (Content {| images := {| unoptimized := None |} |}).


(** A build whose root page exists in both build locations. *)
Definition bothLocations : FileSystem :=
  {| files := {[ "/app/.next/server/pages/index.html" := "<html>pages</html>";
                 "/app/.next/server/app/index.html" := "<html>app</html>";
                 "/app/.next/server/app/404.html" := "<html>not found</html>" ]};
     dirs := {[ "/app"; "/app/.next"; "/app/.next/server"; "/app/.next/server/pages";
                "/app/.next/server/app"; "/out" ]} |}.

End Sample.

(** ** The command line entry point ([bin/firebase.ts])

    The choice of the debug log file and the handler run when the process
    exits. *)
Module LogFile.

(** What the [try] block around [fs.openSync(logFilename, "r+")] and
    [fs.closeSync] comes to: the file could be opened, it does not exist
    ([ENOENT]), or another error was thrown (such as [EPERM]). *)
Inductive OpenOutcome :=
| Opened
| NoEntry
| OtherError (code : string).

(** ["firebase-debug.log"], then [firebase-debug.1.log] to
    [firebase-debug.9.log]. *)
Definition candidates : list string :=
  "firebase-debug.log"
  :: ((fun i : nat => "firebase-debug." +:+ pretty i +:+ ".log") <$> seq 1 9).

(** The loop over the candidates; [None] when it runs to its end. *)
Fixpoint firstAvailable (openSync : string -> OpenOutcome) (cwd : string)
    (names : list string) : option string :=
  match names with
  | [] => None
  | c :: rest =>
      let logFilename := join [cwd; c] in
      match openSync logFilename with
      | Opened => Some logFilename
      | NoEntry => Some logFilename
      | OtherError _ => firstAvailable openSync cwd rest
      end
  end.

Inductive Outcome :=
| Returned (logFilename : string)
| Thrown (message : string).

(** [findAvailableLogFile]; [cwd] is [process.cwd()]. *)
Definition findAvailableLogFile (openSync : string -> OpenOutcome) (cwd : string) : Outcome :=
  match firstAvailable openSync cwd candidates with
  | Some logFilename => Returned logFilename
  | None => Thrown "Unable to obtain permissions for firebase-debug.log"
  end.

(** A directory in which only [firebase-debug.log] and [firebase-debug.1.log]
    cannot be written. *)
Definition twoBlocked (path : string) : OpenOutcome :=
  if String.eqb path "/work/firebase-debug.log" then OtherError "EPERM"
  else if String.eqb path "/work/firebase-debug.1.log" then OtherError "EACCES"
  else if String.eqb path "/work/firebase-debug.2.log" then NoEntry
  else Opened.

Definition allBlocked (path : string) : OpenOutcome := OtherError "EPERM".

End LogFile.

Module ExitHandler.

(** What outlives the process: [lastError] of the configstore and the debug
    log file. *)
Record Store := {
  lastError : option Z;
  logFileExists : bool;
}.

(** The process when it exits: [process.exitCode], the code passed to the
    handler, [process.env.DEBUG], [process.stdout.isTTY], [Date.now()] and
    whether [cmd] was assigned. *)
Record Exit := {
  exitCode : option Z;
  code : Z;
  debug : bool;
  isTTY : bool;
  now : Z;
  cmd : bool;
}.

(** [process.exitCode || code]. *)
Definition effectiveCode (e : Exit) : Z :=
  match exitCode e with
  | Some c => if (c =? 0)%Z then code e else c
  | None => code e
  end.

(** The lines of help, [bold] being [clc.bold]. *)
Definition help (bold : string -> string) (e : Exit) : string :=
  if (effectiveCode e =? 1)%Z && cmd e
  then "Having trouble? Try " +:+ bold "firebase [command] --help"
  else "Having trouble? Try again or contact support with contents of firebase-debug.log".

(** The handler of [process.on("exit", ...)]: the store it leaves and the
    lines it prints. *)
Definition onExit (bold : string -> string) (e : Exit) (s : Store) : Store * list string :=
  let code := effectiveCode e in
  let logFileExists :=
    if negb (debug e) && (code <? 2)%Z && logFileExists s then false else logFileExists s in
  if (0 <? code)%Z && isTTY e then
    let lastError := default 0%Z (lastError s) in
    let timestamp := now e in
    let printed :=
      if (timestamp - 120000 <? lastError)%Z
      then (if cmd e then [""; help bold e] else [])
      else [] in
    ({| lastError := Some timestamp; logFileExists := logFileExists |}, printed)
  else ({| lastError := None; logFileExists := logFileExists |}, []).

Definition plain (s : string) : string := s.

Definition failure (at_ : Z) : Exit :=
  {| exitCode := None; code := 1; debug := false; isTTY := true; now := at_; cmd := true |}.

Definition success (at_ : Z) : Exit :=
  {| exitCode := None; code := 0; debug := false; isTTY := true; now := at_; cmd := true |}.

End ExitHandler.

(** ** The command table ([index.ts]) *)
Module Client.

Record Command := {
  _name : string;
  description : string;
}.

(** [client.getCommand]: the loop over [client.cli.commands]. *)
Fixpoint getCommand (commands : list Command) (name : string) : option Command :=
  match commands with
  | [] => None
  | c :: rest => if String.eqb (_name c) name then Some c else getCommand rest name
  end.

Definition sampleCommands : list Command :=
  [ {| _name := "deploy"; description := "deploy code and assets" |};
    {| _name := "login"; description := "log the CLI into Firebase" |};
    {| _name := "deploy"; description := "a second registration" |} ].

End Client.

(** ** Preparing a Firestore deploy ([deploy/firestore/prepare.ts])

    [RulesDeploy], [loadCJSON], [options.config.path] and [getFirestoreConfig]
    are not among the sources: the first three are parameters, and what the
    last one returns is an argument.  A collaborator that throws returns
    [inl]. *)
Module Firestore.

Record RulesContext := {
  rules_databaseId : string;
  rulesFile : string;
}.

Record IndexContext (Json : Type) := {
  index_databaseId : string;
  indexesFileName : string;
  indexesSrc : Json;
}.
Arguments index_databaseId {Json} _.
Arguments indexesFileName {Json} _.
Arguments indexesSrc {Json} _.

Record ParsedFirestoreConfig := {
  database : string;
  rules : option string;
  indexes : option string;
}.

(** [context.firestore]: the two lists and the [rulesDeploy] that
    [_.set(context, "firestore.rulesDeploy", rulesDeploy)] stores; [addFile]
    changes that same object. *)
Record FirestoreContext (Json RulesDeploy : Type) := {
  fc_indexes : list (IndexContext Json);
  fc_rules : list RulesContext;
  fc_rulesDeploy : RulesDeploy;
}.
Arguments fc_indexes {Json RulesDeploy} _.
Arguments fc_rules {Json RulesDeploy} _.
Arguments fc_rulesDeploy {Json RulesDeploy} _.

Record Context (Json RulesDeploy : Type) := {
  firestoreIndexes : option bool;
  firestoreRules : option bool;
  firestore : option (FirestoreContext Json RulesDeploy);
}.
Arguments firestoreIndexes {Json RulesDeploy} _.
Arguments firestoreRules {Json RulesDeploy} _.
Arguments firestore {Json RulesDeploy} _.

(** A string as a condition: [undefined] and the empty string are falsy. *)
Definition truthy_string (s : option string) : bool :=
  match s with
  | Some (String _ _) => true
  | _ => false
  end.

(** [targets.indexOf(target) >= 0]. *)
Definition hasTarget (targets : list string) (target : string) : bool :=
  existsb (String.eqb target) targets.

Section Prepare.

Context {Json RulesDeploy E : Type}.
Variable configPath : string -> string.
Variable loadCJSON : string -> E + Json.
Variable addFile : string -> RulesDeploy -> E + RulesDeploy.
Variable compile : RulesDeploy -> E + RulesDeploy.

(** [prepareRules]. *)
Definition prepareRules (fc : FirestoreContext Json RulesDeploy)
    (databaseId rulesFile : string) : E + FirestoreContext Json RulesDeploy :=
  match addFile rulesFile (fc_rulesDeploy fc) with
  | inl e => inl e
  | inr rulesDeploy =>
      inr {| fc_indexes := fc_indexes fc;
             fc_rules := fc_rules fc
                         ++ [{| rules_databaseId := databaseId; rulesFile := rulesFile |}];
             fc_rulesDeploy := rulesDeploy |}
  end.

(** [prepareIndexes]. *)
Definition prepareIndexes (fc : FirestoreContext Json RulesDeploy)
    (databaseId indexesFileName : string) : E + FirestoreContext Json RulesDeploy :=
  let indexesPath := configPath indexesFileName in
  match loadCJSON indexesPath with
  | inl e => inl e
  | inr indexesSrc =>
      inr {| fc_indexes := fc_indexes fc
                           ++ [{| index_databaseId := databaseId;
                                  indexesFileName := indexesFileName;
                                  indexesSrc := indexesSrc |}];
             fc_rules := fc_rules fc;
             fc_rulesDeploy := fc_rulesDeploy fc |}
  end.

(** The body of [firestoreConfigs.forEach]. *)
Definition prepareConfig (fc : FirestoreContext Json RulesDeploy)
    (firestoreConfig : ParsedFirestoreConfig) : E + FirestoreContext Json RulesDeploy :=
  match
    (if truthy_string (indexes firestoreConfig)
     then prepareIndexes fc (database firestoreConfig) (default "" (indexes firestoreConfig))
     else inr fc)
  with
  | inl e => inl e
  | inr fc =>
      if truthy_string (rules firestoreConfig)
      then prepareRules fc (database firestoreConfig) (default "" (rules firestoreConfig))
      else inr fc
  end.

Fixpoint forEach (firestoreConfigs : list ParsedFirestoreConfig)
    (fc : FirestoreContext Json RulesDeploy) : E + FirestoreContext Json RulesDeploy :=
  match firestoreConfigs with
  | [] => inr fc
  | firestoreConfig :: rest =>
      match prepareConfig fc firestoreConfig with
      | inl e => inl e
      | inr fc => forEach rest fc
      end
  end.

(** [rulesDeploy.addFile] called on each of [files] in turn. *)
Fixpoint addFiles (files : list string) (rulesDeploy : RulesDeploy) : E + RulesDeploy :=
  match files with
  | [] => inr rulesDeploy
  | file :: rest =>
      match addFile file rulesDeploy with
      | inl e => inl e
      | inr rulesDeploy => addFiles rest rulesDeploy
      end
  end.

(** The default export; [only] is [options.only], [firestoreConfigs] what
    [getFirestoreConfig] returned ([None] when it is falsy) and
    [rulesDeploy] the new [RulesDeploy]. *)
Definition prepare (only : option string)
    (firestoreConfigs : option (list ParsedFirestoreConfig)) (rulesDeploy : RulesDeploy)
    (context : Context Json RulesDeploy) : E + Context Json RulesDeploy :=
  let '(firestoreIndexes, firestoreRules) :=
    if truthy_string only then
      let targets := split ","%char (default "" only) in
      let onlyIndexes := hasTarget targets "firestore:indexes" in
      let onlyRules := hasTarget targets "firestore:rules" in
      let onlyFirestore := hasTarget targets "firestore" in
      (onlyIndexes || onlyFirestore, onlyRules || onlyFirestore)
    else (true, true) in
  let flagged :=
    {| firestoreIndexes := Some firestoreIndexes;
       firestoreRules := Some firestoreRules;
       firestore := firestore context |} in
  match firestoreConfigs with
  | None | Some [] => inr flagged
  | Some firestoreConfigs =>
      match forEach firestoreConfigs
              {| fc_indexes := []; fc_rules := []; fc_rulesDeploy := rulesDeploy |} with
      | inl e => inl e
      | inr fc =>
          match (if bool_decide (0 < length (fc_rules fc))
                 then compile (fc_rulesDeploy fc) else inr (fc_rulesDeploy fc)) with
          | inl e => inl e
          | inr compiled =>
              inr {| firestoreIndexes := Some firestoreIndexes;
                     firestoreRules := Some firestoreRules;
                     firestore := Some {| fc_indexes := fc_indexes fc;
                                          fc_rules := fc_rules fc;
                                          fc_rulesDeploy := compiled |} |}
          end
      end
  end.

End Prepare.

(** The rules and the indexes the configurations name, in their order. *)
Definition rulesOf (firestoreConfigs : list ParsedFirestoreConfig) : list RulesContext :=
  omap (fun c => if truthy_string (rules c)
                 then Some {| rules_databaseId := database c;
                              rulesFile := default "" (rules c) |}
                 else None)
       firestoreConfigs.

Definition indexFilesOf (firestoreConfigs : list ParsedFirestoreConfig)
    : list (string * string) :=
  omap (fun c => if truthy_string (indexes c)
                 then Some (database c, default "" (indexes c)) else None)
       firestoreConfigs.

(** A rules deploy that records the files added to it and whether it was
    compiled, and a loader that returns the path it is given. *)
Definition sampleAddFile (file : string) (added : list string * bool)
    : string + (list string * bool) :=
  inr (added.1 ++ [file], added.2).

Definition sampleCompile (added : list string * bool) : string + (list string * bool) :=
  inr (added.1, true).

Definition sampleLoad (path : string) : string + string := inr path.

Definition sampleConfigs : list ParsedFirestoreConfig :=
  [ {| database := "(default)"; rules := Some "firestore.rules";
       indexes := Some "firestore.indexes.json" |};
    {| database := "second"; rules := None; indexes := Some "second.indexes.json" |} ].

Definition emptyContext : Context string (list string * bool) :=
  {| firestoreIndexes := None; firestoreRules := None; firestore := None |}.

Definition sampleConfigPath (file : string) : string := "/proj/" +:+ file.

End Firestore.


(** ** Further sample builds *)
Module Fixture.

(** Posts rendered on demand, in an application that uses the app directory. *)
Definition dynamicOutput : BuildOutput :=
  {| middleware_manifest_json := Content {| middleware := [] |};
     export_marker_json := Content {| isNextImageImported := None |};
     images_manifest_json := Missing;
     app_path_routes_manifest_json := Content [("/page", "/")];
     prerender_manifest_json :=
       Content {| routes := [];
                  dynamicRoutes :=
                    [("/posts/[id]", {| fallback := FallbackPage "/posts/[id].html" |});
                     ("/tags/[tag]", {| fallback := FallbackFalse |})] |};
     pages_manifest_json := Content [("/_app", "pages/_app.js")];
     routes_manifest_json := Content Sample.plainRoutesManifest |}.

Definition blogRoute : SsgRoute :=
  {| initialRevalidateSeconds := None; dataRoute := "/_next/data/build/blog.json" |}.



(** A static site with one prerendered page. *)
Definition staticSite : BuildOutput :=
  {| middleware_manifest_json := Content {| middleware := [] |};
     export_marker_json := Content {| isNextImageImported := Some false |};
     images_manifest_json := Missing;
     app_path_routes_manifest_json := Missing;
     prerender_manifest_json :=
       Content {| routes := [("/blog", blogRoute)]; dynamicRoutes := [] |};
     pages_manifest_json := Content [("/_app", "pages/_app.js"); ("/blog", "pages/blog.html")];
     routes_manifest_json := Content Sample.plainRoutesManifest |}.

(** What the build of such a site leaves on disk. *)
Definition built : FileSystem :=
  {| files := {[ "/app/.next/server/pages/blog.html" := "<html>blog</html>";
                 "/app/.next/server/pages/blog.json" := "{}";
                 "/app/.next/server/app/docs.html" := "<html>docs</html>" ]};
     dirs := {[ "/app"; "/app/.next"; "/app/.next/server"; "/app/.next/server/pages";
                "/app/.next/server/app"; "/out" ]} |}.

End Fixture.
Section Adapter.

(** The rule predicates and the escaping clean-up of [./utils] are not among
    the sources; the adapter is verified for any of them. *)
Variable isHeaderSupportedByFirebase : Header.t -> bool.
Variable isRedirectSupportedByFirebase : Redirect.t -> bool.
Variable isRewriteSupportedByFirebase : Rewrite.t -> bool.
Variable cleanEscapedChars : string -> string.

Definition toHostingHeader (h : Header.t) : HostingHeader :=
  {| hh_source := cleanEscapedChars (Header.source h);
     hh_headers := Header.headers h |}.

Definition toHostingRedirect (r : Redirect.t) : HostingRedirect :=
  {| hr_source := cleanEscapedChars (Redirect.source r);
     hr_destination := Redirect.destination r;
     hr_type := Redirect.statusCode r |}.

Definition toHostingRewrite (r : Rewrite.t) : HostingRewrite :=
  {| hw_source := cleanEscapedChars (Rewrite.source r);
     hw_destination := Rewrite.destination r |}.

(** [build], from the declaration of [reasonsForBackend] on. *)
Definition build (debug : bool) (out : BuildOutput) : result BuildRun :=
  let reasonsForBackend : list string := [] in

  middlewareManifest ← readJSON MiddlewareManifestJson (middleware_manifest_json out);
  let usingMiddleware := bool_decide (0 < length (keys (middleware middlewareManifest))) in
  let reasonsForBackend := push_when usingMiddleware reasonsForBackend "use of Next middleware" in

  exportMarker ← readJSON ExportMarkerJson (export_marker_json out);
  reasonsForBackend ←
    (if truthy_bool (isNextImageImported exportMarker) then
       imagesManifest ← readJSON ImagesManifestJson (images_manifest_json out);
       let usingImageOptimization :=
         bool_decide (unoptimized (images imagesManifest) = Some false) in
       mret (push_when usingImageOptimization reasonsForBackend "use of Next Image Optimization")
     else mret reasonsForBackend);

  appPathRoutesManifestJSON ←
    (if fileExistsSync (app_path_routes_manifest_json out)
     then readJSON AppPathRoutesManifestJson (app_path_routes_manifest_json out)
     else mret []);
  let usingAppDirectory := bool_decide (0 < length (keys appPathRoutesManifestJSON)) in
  let reasonsForBackend :=
    push_when usingAppDirectory reasonsForBackend "use of Next app directory" in

  prerenderManifest ← readJSON PrerenderManifestJson (prerender_manifest_json out);

  let dynamicRoutesWithFallback :=
    List.filter (fun '(_, it) => match fallback it with FallbackFalse => false | _ => true end)
                (entries (dynamicRoutes prerenderManifest)) in
  let reasonsForBackend :=
    push_each (fun '(key, _) => "use of fallback " +:+ key)
              reasonsForBackend dynamicRoutesWithFallback in

  let routesWithRevalidate :=
    List.filter (fun '(_, it) => truthy_number (initialRevalidateSeconds it))
                (entries (routes prerenderManifest)) in
  let reasonsForBackend :=
    push_each (fun '(key, _) => "use of revalidate " +:+ key)
              reasonsForBackend routesWithRevalidate in

  pagesManifestJSON ← readJSON PagesManifestJson (pages_manifest_json out);
  let prerenderedRoutes := keys (routes prerenderManifest) in
  let dynamicRouteKeys := keys (dynamicRoutes prerenderManifest) in
  let unrenderedPages :=
    List.filter (fun it => negb (includes reservedPages it
                                 || includes prerenderedRoutes it
                                 || includes dynamicRouteKeys it))
                (keys pagesManifestJSON) in
  let reasonsForBackend :=
    push_each (fun key => "non-static route " +:+ key) reasonsForBackend unrenderedPages in

  manifest ← readJSON RoutesManifestJson (routes_manifest_json out);
  let nextJsHeaders := default [] (headers manifest) in
  let nextJsRedirects := default [] (redirects manifest) in
  let nextJsRewrites := default (SimpleList []) (rewrites manifest) in

  let isEveryHeaderSupported := forallb isHeaderSupportedByFirebase nextJsHeaders in
  let reasonsForBackend :=
    push_when (negb isEveryHeaderSupported) reasonsForBackend "use of advanced headers" in
  let headers := toHostingHeader <$> List.filter isHeaderSupportedByFirebase nextJsHeaders in

  let isEveryRedirectSupported := forallb isRedirectSupportedByFirebase nextJsRedirects in
  let reasonsForBackend :=
    push_when (negb isEveryRedirectSupported) reasonsForBackend "use of advanced redirects" in
  let redirects :=
    toHostingRedirect <$> List.filter isRedirectSupportedByFirebase nextJsRedirects in

  let nextJsRewritesToUse := getNextjsRewritesToUse nextJsRewrites in
  let reasonsForBackend :=
    if negb (isArray nextJsRewrites)
       && (truthy_length (afterFiles nextJsRewrites)
           || truthy_length (fallbackPhase nextJsRewrites))
    then push reasonsForBackend "use of advanced rewrites"
    else
      let isEveryRewriteSupported :=
        forallb isRewriteSupportedByFirebase nextJsRewritesToUse in
      push_when (negb isEveryRewriteSupported) reasonsForBackend "use of advanced rewrites" in
  let rewrites :=
    toHostingRewrite <$> List.filter isRewriteSupportedByFirebase nextJsRewritesToUse in

  let wantsBackend := bool_decide (0 < length reasonsForBackend) in
  mret {| returned := {| wantsBackend := wantsBackend;
                         br_headers := headers;
                         br_redirects := redirects;
                         br_rewrites := rewrites |};
          reasonsForBackend := reasonsForBackend;
          console := if wantsBackend then report debug reasonsForBackend else [] |}.

(** ** The reasons, block by block

    These definitions cut the list that [build] accumulates into the pieces
    each block of the function appends; [build_blocks] below proves that the
    function computes exactly their concatenation. *)

Definition middlewareReasons (mm : MiddlewareManifest) : list string :=
  if bool_decide (0 < length (keys (middleware mm))) then ["use of Next middleware"] else [].

Definition imageReasons (em : ExportMarker) (im : file ImagesManifest) : result (list string) :=
  if truthy_bool (isNextImageImported em) then
    imagesManifest ← readJSON ImagesManifestJson im;
    mret (if bool_decide (unoptimized (images imagesManifest) = Some false)
          then ["use of Next Image Optimization"] else [])
  else mret [].

Definition readAppPathRoutes (f : file AppPathRoutesManifest) : result AppPathRoutesManifest :=
  if fileExistsSync f then readJSON AppPathRoutesManifestJson f else mret [].

Definition appDirectoryReasons (app : AppPathRoutesManifest) : list string :=
  if bool_decide (0 < length (keys app)) then ["use of Next app directory"] else [].

Definition hasFallback (it : DynamicSsgRoute) : bool :=
  match fallback it with
  | FallbackFalse => false
  | _ => true
  end.

Definition fallbackReasons (pm : PrerenderManifest) : list string :=
  (fun e : string * DynamicSsgRoute => "use of fallback " +:+ e.1)
    <$> List.filter (fun e => hasFallback e.2) (dynamicRoutes pm).

Definition revalidateReasons (pm : PrerenderManifest) : list string :=
  (fun e : string * SsgRoute => "use of revalidate " +:+ e.1)
    <$> List.filter (fun e => truthy_number (initialRevalidateSeconds e.2)) (routes pm).

Definition isUnrendered (pm : PrerenderManifest) (it : string) : bool :=
  negb (includes reservedPages it
        || includes (keys (routes pm)) it
        || includes (keys (dynamicRoutes pm)) it).

Definition pageReasons (pm : PrerenderManifest) (pages : PagesManifest) : list string :=
  (fun key => "non-static route " +:+ key) <$> List.filter (isUnrendered pm) (keys pages).

Definition nextJsHeaders (m : Manifest) : list Header.t := default [] (headers m).
Definition nextJsRedirects (m : Manifest) : list Redirect.t := default [] (redirects m).
Definition nextJsRewrites (m : Manifest) : Rewrites := default (SimpleList []) (rewrites m).

(** Every rewrite rule of the manifest, whatever its phase. *)
Definition allRewrites (rw : Rewrites) : list Rewrite.t :=
  match rw with
  | SimpleList l => l
  | PhasedRewrites _ _ _ =>
      default [] (beforeFiles rw) ++ default [] (afterFiles rw) ++ default [] (fallbackPhase rw)
  end.

(** The phased form with something in [afterFiles] or [fallback]. *)
Definition usesLaterPhases (rw : Rewrites) : bool :=
  negb (isArray rw) && (truthy_length (afterFiles rw) || truthy_length (fallbackPhase rw)).

Definition headerReasons (m : Manifest) : list string :=
  if forallb isHeaderSupportedByFirebase (nextJsHeaders m) then []
  else ["use of advanced headers"].

Definition redirectReasons (m : Manifest) : list string :=
  if forallb isRedirectSupportedByFirebase (nextJsRedirects m) then []
  else ["use of advanced redirects"].

Definition rewriteReasons (m : Manifest) : list string :=
  if usesLaterPhases (nextJsRewrites m) then ["use of advanced rewrites"]
  else if forallb isRewriteSupportedByFirebase (getNextjsRewritesToUse (nextJsRewrites m))
       then [] else ["use of advanced rewrites"].

Definition manifestReasons (mm : MiddlewareManifest) (img : list string)
    (app : AppPathRoutesManifest) (pm : PrerenderManifest) (pages : PagesManifest)
    (m : Manifest) : list string :=
  middlewareReasons mm ++ img ++ appDirectoryReasons app
  ++ fallbackReasons pm ++ revalidateReasons pm ++ pageReasons pm pages
  ++ headerReasons m ++ redirectReasons m ++ rewriteReasons m.

Definition finish (debug : bool) (reasons : list string) (m : Manifest) : BuildRun :=
  let wants := bool_decide (0 < length reasons) in
  {| returned :=
       {| wantsBackend := wants;
          br_headers :=
            toHostingHeader
              <$> List.filter isHeaderSupportedByFirebase (nextJsHeaders m);
          br_redirects :=
            toHostingRedirect
              <$> List.filter isRedirectSupportedByFirebase (nextJsRedirects m);
          br_rewrites :=
            toHostingRewrite
              <$> List.filter isRewriteSupportedByFirebase
                    (getNextjsRewritesToUse (nextJsRewrites m)) |};
     reasonsForBackend := reasons;
     console := if wants then report debug reasons else [] |}.

Definition build_by_blocks (debug : bool) (out : BuildOutput) : result BuildRun :=
  mm ← readJSON MiddlewareManifestJson (middleware_manifest_json out);
  em ← readJSON ExportMarkerJson (export_marker_json out);
  img ← imageReasons em (images_manifest_json out);
  app ← readAppPathRoutes (app_path_routes_manifest_json out);
  pm ← readJSON PrerenderManifestJson (prerender_manifest_json out);
  pages ← readJSON PagesManifestJson (pages_manifest_json out);
  m ← readJSON RoutesManifestJson (routes_manifest_json out);
  mret (finish debug (manifestReasons mm img app pm pages m) m).

(** ** The static export *)

(** [new RegExp(pattern).test(path)]: the regular-expression engine, for any
    behaviour of which the exporter is verified. *)
Variable regexp_test : string -> string -> bool.

(** [copy(src, dest)] of fs-extra: the recursive copy of a directory. *)
Variable copy : string -> string -> FileSystem -> result FileSystem.

(** The regular expressions of the rules the hosting configuration cannot
    express, computed once before the loop. *)
Definition rewritesRegexesNotSupportedByFirebase (m : Manifest) : list string :=
  Rewrite.regex
    <$> List.filter (fun rewrite => negb (isRewriteSupportedByFirebase rewrite))
                    (getNextjsRewritesToUse (nextJsRewrites m)).

Definition redirectsRegexesNotSupportedByFirebase (m : Manifest) : list string :=
  Redirect.regex
    <$> List.filter (fun redirect => negb (isRedirectSupportedByFirebase redirect))
                    (nextJsRedirects m).

Definition headersRegexesNotSupportedByFirebase (m : Manifest) : list string :=
  Header.regex
    <$> List.filter (fun header => negb (isHeaderSupportedByFirebase header))
                    (nextJsHeaders m).

Definition matchesSome (regexes : list string) (path : string) : bool :=
  existsb (fun regex => regexp_test regex path) regexes.

(** The body of the loop over [Object.entries(prerenderManifest.routes)]. *)
Definition exportRoute (sourceDir distDir destDir : string)
    (middlewareMatchers : list MiddlewareMatcher) (m : Manifest)
    (path : string) (route : SsgRoute) (fs : FileSystem) : result FileSystem :=
  if truthy_number (initialRevalidateSeconds route) then Ok fs
  else
    let matchingMiddleware :=
      existsb (fun matcher => regexp_test (regexp matcher) path) middlewareMatchers in
    if matchingMiddleware then Ok fs
    else if matchesSome (rewritesRegexesNotSupportedByFirebase m) path then Ok fs
    else if matchesSome (redirectsRegexesNotSupportedByFirebase m) path then Ok fs
    else if matchesSome (headersRegexesNotSupportedByFirebase m) path then Ok fs
    else
      let isReactServerComponent := endsWith (dataRoute route) ".rsc" in
      let contentDist :=
        join [sourceDir; distDir; "server"; if isReactServerComponent then "app" else "pages"] in
      fs ← mkdir (join [destDir; dirname (htmlPath path)]) fs;
      fs ← copyFile (join [contentDist; htmlPath path]) (join [destDir; htmlPath path]) fs;
      if negb isReactServerComponent then
        fs ← mkdir (join [destDir; dirname (dataRoute route)]) fs;
        copyFile (join [contentDist; dataPath path]) (join [destDir; dataRoute route]) fs
      else Ok fs.

(** The conditions under which the loop body [continue]s without copying. *)
Definition skipsRoute (middlewareMatchers : list MiddlewareMatcher) (m : Manifest)
    (path : string) (route : SsgRoute) : bool :=
  truthy_number (initialRevalidateSeconds route)
  || existsb (fun matcher => regexp_test (regexp matcher) path) middlewareMatchers
  || matchesSome (rewritesRegexesNotSupportedByFirebase m) path
  || matchesSome (redirectsRegexesNotSupportedByFirebase m) path
  || matchesSome (headersRegexesNotSupportedByFirebase m) path.




(** How many times a reason was pushed. *)
Definition occurrences (s : string) (l : list string) : nat :=
  length (filter (fun r => r = s) l).


(** ** Variations of a build output *)

(** The same build output with another [images-manifest.json]. *)
Definition withImagesManifest (out : BuildOutput) (f : file ImagesManifest) : BuildOutput :=
  {| middleware_manifest_json := middleware_manifest_json out;
     export_marker_json := export_marker_json out;
     images_manifest_json := f;
     app_path_routes_manifest_json := app_path_routes_manifest_json out;
     prerender_manifest_json := prerender_manifest_json out;
     pages_manifest_json := pages_manifest_json out;
     routes_manifest_json := routes_manifest_json out |}.

(** Nothing in the manifests asks for a backend. *)
Definition staticManifests (out : BuildOutput) (mm : MiddlewareManifest) (em : ExportMarker)
    (pm : PrerenderManifest) (pages : PagesManifest) (m : Manifest) : Prop :=
  middleware mm = []
  /\ (forall im, truthy_bool (isNextImageImported em) = true ->
                 images_manifest_json out = Content im ->
                 unoptimized (images im) <> Some false)
  /\ (forall app, app_path_routes_manifest_json out = Content app -> app = [])
  /\ (forall key it, (key, it) ∈ dynamicRoutes pm -> fallback it = FallbackFalse)
  /\ (forall key it, (key, it) ∈ routes pm ->
                     truthy_number (initialRevalidateSeconds it) = false)
  /\ (forall page, page ∈ keys pages ->
                   page ∈ reservedPages \/ page ∈ keys (routes pm)
                   \/ page ∈ keys (dynamicRoutes pm))
  /\ (forall rule, rule ∈ nextJsHeaders m -> isHeaderSupportedByFirebase rule = true)
  /\ (forall rule, rule ∈ nextJsRedirects m -> isRedirectSupportedByFirebase rule = true)
  /\ usesLaterPhases (nextJsRewrites m) = false
  /\ (forall rule, rule ∈ getNextjsRewritesToUse (nextJsRewrites m) ->
                   isRewriteSupportedByFirebase rule = true).

(** ** What the exporter leaves in place *)

(** The files a step leaves behind include the files it found, and so for the
    directories. *)
Definition keeps (fs fs' : FileSystem) : Prop :=
  (forall path, is_Some (files fs !! path) -> is_Some (files fs' !! path))
  /\ dirs fs ⊆ dirs fs'.

(** The loop over the routes of a prerender manifest. *)
Definition exportRoutes (sourceDir distDir destDir : string)
    (middlewareMatchers : list MiddlewareMatcher) (m : Manifest)
    (routes : obj SsgRoute) (fs : FileSystem) : result FileSystem :=
  for_each (entries routes)
           (fun '(path, route) =>
              exportRoute sourceDir distDir destDir middlewareMatchers m path route)
           fs.
(** ** Counting reasons *)

#[local] Set Default Proof Using "Type".

Lemma occurrences_nil s : occurrences s [] = 0.
Proof. reflexivity. Qed.

Lemma occurrences_app s l1 l2 :
  occurrences s (l1 ++ l2) = occurrences s l1 + occurrences s l2.
Proof. unfold occurrences. by rewrite filter_app, length_app. Qed.

Lemma occurrences_cons s r l :
  occurrences s (r :: l) = (if decide (r = s) then 1 else 0) + occurrences s l.
Proof.
  unfold occurrences. rewrite filter_cons. by destruct (decide (r = s)).
Qed.

Lemma occurrences_none s l : s ∉ l -> occurrences s l = 0.
Proof.
  induction l as [|r l IH]; intros Hnot; [done|].
  rewrite occurrences_cons. apply not_elem_of_cons in Hnot as [Hne Hl].
  rewrite decide_False by congruence. by rewrite IH.
Qed.

Lemma occurrences_pos s l : s ∈ l <-> 0 < occurrences s l.
Proof.
  split.
  - intros Hin. induction l as [|r l IH]; [by apply elem_of_nil in Hin|].
    rewrite occurrences_cons. apply elem_of_cons in Hin as [->|Hin].
    + rewrite decide_True by done. lia.
    + specialize (IH Hin). lia.
  - intros Hpos. destruct (decide (s ∈ l)) as [|Hnot]; [done|].
    rewrite (occurrences_none _ _ Hnot) in Hpos. lia.
Qed.

Lemma occurrences_NoDup s l : NoDup l -> s ∈ l -> occurrences s l = 1.
Proof.
  induction 1 as [|r l Hr Hnd IH]; intros Hin; [by apply elem_of_nil in Hin|].
  rewrite occurrences_cons. apply elem_of_cons in Hin as [->|Hin].
  - rewrite decide_True by done. by rewrite occurrences_none.
  - rewrite decide_False by (intros ->; done). by rewrite IH.
Qed.

Lemma append_inv_head (prefix a b : string) : prefix +:+ a = prefix +:+ b -> a = b.
Proof. induction prefix as [|c p IH]; simpl; [done|]. intros [= Heq]. auto. Qed.

(** A reason built as [prefix +:+ key] occurs as often as its key does. *)
Lemma occurrences_prefixed (prefix key : string) (l : list string) :
  occurrences (prefix +:+ key) ((fun k => prefix +:+ k) <$> l) = occurrences key l.
Proof.
  induction l as [|k l IH]; [done|].
  rewrite fmap_cons, !occurrences_cons, IH.
  destruct (decide (k = key)) as [->|Hne].
  - by rewrite decide_True.
  - rewrite decide_False; [done|]. intros Heq. by apply append_inv_head in Heq.
Qed.

Lemma includes_spec l s : includes l s = true <-> s ∈ l.
Proof.
  unfold includes. rewrite existsb_exists. split.
  - intros (x & Hin & Heq). apply String.eqb_eq in Heq as ->.
    by apply list_elem_of_In.
  - intros Hin. exists s. split; [by apply list_elem_of_In|apply String.eqb_refl].
Qed.

Lemma foldl_push {A} (f : A -> string) (acc : list string) (l : list A) :
  foldl (fun reasons x => push reasons (f x)) acc l = acc ++ (f <$> l).
Proof.
  revert acc. induction l as [|x l IH]; intros acc; simpl.
  - by rewrite app_nil_r.
  - rewrite IH. unfold push. by rewrite <- app_assoc.
Qed.

(** ** [build] computes the concatenation of its blocks *)

Lemma filter_entries_fallback (o : obj DynamicSsgRoute) :
    List.filter (fun '(_, it) => match fallback it with FallbackFalse => false | _ => true end) o
    = List.filter (fun e => hasFallback e.2) o.
  Proof. induction o as [|[k v] o IH]; simpl; [done|]. unfold hasFallback at 1. by rewrite IH. Qed.

Lemma filter_entries_revalidate (o : obj SsgRoute) :
    List.filter (fun '(_, it) => truthy_number (initialRevalidateSeconds it)) o
    = List.filter (fun e => truthy_number (initialRevalidateSeconds e.2)) o.
  Proof. induction o as [|[k v] o IH]; simpl; [done|]. by rewrite IH. Qed.

Lemma push_each_app {A} (f : A -> string) (acc : list string) (l : list A) :
  push_each f acc l = acc ++ (f <$> l).
Proof.
  unfold push_each. destruct l as [|x l].
  - cbn. by rewrite app_nil_r.
  - rewrite bool_decide_eq_true_2 by (cbn; lia). apply foldl_push.
Qed.

Lemma fmap_entry_key {V} (prefix : string) (l : obj V) :
  (fun '(key, _) => prefix +:+ key) <$> l = (fun e : string * V => prefix +:+ e.1) <$> l.
Proof. apply list_fmap_ext. by intros i [k v] _. Qed.

Lemma push_when_app (cond : bool) (reasons : list string) (reason : string) :
  push_when cond reasons reason = reasons ++ (if cond then [reason] else []).
Proof. unfold push_when, push. destruct cond; [done|by rewrite app_nil_r]. Qed.

Lemma imageReasons_push (em : ExportMarker) (im : file ImagesManifest) (acc : list string) :
  (if truthy_bool (isNextImageImported em)
   then imagesManifest ← readJSON ImagesManifestJson im;
        mret (push_when (bool_decide (unoptimized (images imagesManifest) = Some false))
                        acc "use of Next Image Optimization")
   else mret acc)
  = (img ← imageReasons em im; mret (acc ++ img)).
Proof.
  unfold imageReasons.
  destruct (truthy_bool _); cbn; [|by rewrite app_nil_r].
  destruct im as [| |m]; cbn; try done.
  by rewrite push_when_app.
Qed.

Lemma build_blocks debug out : build debug out = build_by_blocks debug out.
Proof.
  unfold build, build_by_blocks.
  destruct (middleware_manifest_json out) as [| |mm]; cbn [readJSON mbind result_bind]; try done.
  destruct (export_marker_json out) as [| |em]; cbn [readJSON mbind result_bind]; try done.
  cbv zeta. rewrite imageReasons_push.
  destruct (imageReasons em (images_manifest_json out)) as [img|e];
    cbn [mbind result_bind mret result_ret]; [|done].
  unfold readAppPathRoutes.
  destruct (if fileExistsSync _ then _ else _) as [app|e]; cbn [mbind result_bind]; [|done].
  destruct (prerender_manifest_json out) as [| |pm]; cbn [readJSON mbind result_bind]; try done.
  destruct (pages_manifest_json out) as [| |pages]; cbn [readJSON mbind result_bind]; try done.
  destruct (routes_manifest_json out) as [| |m]; cbn [readJSON mbind result_bind]; try done.
  rewrite filter_entries_fallback, filter_entries_revalidate.
  rewrite !push_each_app, !fmap_entry_key.
  set (rs := if negb (isArray _) && _ then _ else _).
  assert (Hrs : rs = manifestReasons mm img app pm pages m).
  { unfold rs, manifestReasons, middlewareReasons, appDirectoryReasons, fallbackReasons,
      revalidateReasons, pageReasons, headerReasons, redirectReasons, rewriteReasons,
      usesLaterPhases, nextJsHeaders, nextJsRedirects, nextJsRewrites, isUnrendered, entries.
    rewrite !push_when_app. unfold push.
    destruct (negb (isArray _) && _);
      repeat match goal with |- context [forallb ?p ?l] => destruct (forallb p l) end;
      cbn [negb]; rewrite <- ?app_assoc, ?app_nil_r, ?app_nil_l; reflexivity. }
  clearbody rs. subst rs. reflexivity.
Qed.

(** What a successful run has read, and what it returns. *)
Lemma build_Ok_inv debug out run :
    build debug out = Ok run ->
    exists mm em img app pm pages m,
      middleware_manifest_json out = Content mm
      /\ export_marker_json out = Content em
      /\ imageReasons em (images_manifest_json out) = Ok img
      /\ readAppPathRoutes (app_path_routes_manifest_json out) = Ok app
      /\ prerender_manifest_json out = Content pm
      /\ pages_manifest_json out = Content pages
      /\ routes_manifest_json out = Content m
      /\ run = finish debug (manifestReasons mm img app pm pages m) m.
  Proof.
  rewrite build_blocks. unfold build_by_blocks.
  destruct (middleware_manifest_json out) as [| |mm]; cbn; try done.
  destruct (export_marker_json out) as [| |em]; cbn; try done.
  destruct (imageReasons em (images_manifest_json out)) as [img|e] eqn:Himg; cbn; [|done].
  destruct (readAppPathRoutes (app_path_routes_manifest_json out)) as [app|e] eqn:Happ;
    cbn; [|done].
  destruct (prerender_manifest_json out) as [| |pm]; cbn; try done.
  destruct (pages_manifest_json out) as [| |pages]; cbn; try done.
  destruct (routes_manifest_json out) as [| |m]; cbn; try done.
  intros [= <-]. by exists mm, em, img, app, pm, pages, m.
Qed.


(** ** Which block a reason comes from *)

Lemma elem_of_List_filter {A} (f : A -> bool) (l : list A) (x : A) :
  x ∈ List.filter f l <-> x ∈ l /\ f x = true.
Proof. rewrite !list_elem_of_In. apply filter_In. Qed.

Lemma NoDup_List_filter {A} (f : A -> bool) (l : list A) :
  NoDup l -> NoDup (List.filter f l).
Proof.
  induction 1 as [|x l Hx Hnd IH]; simpl; [constructor|].
  destruct (f x); [|done]. constructor; [|done].
  rewrite elem_of_List_filter. tauto.
Qed.

Lemma List_filter_sublist {A} (f : A -> bool) (l : list A) :
  List.filter f l `sublist_of` l.
Proof.
  induction l as [|x l IH]; simpl; [constructor|].
  destruct (f x); by constructor.
Qed.

Lemma imageReasons_cases em im img :
  imageReasons em im = Ok img ->
  img = [] \/ img = ["use of Next Image Optimization"].
Proof.
  unfold imageReasons. destruct (truthy_bool _); cbn; [|intros [= <-]; by left].
  destruct im as [| |m]; cbn; try done.
  destruct (bool_decide _); intros [= <-]; [by right|by left].
Qed.

Lemma fallbackReasons_keys pm :
  fallbackReasons pm
  = (fun k => "use of fallback " +:+ k)
      <$> (List.filter (fun e => hasFallback e.2) (dynamicRoutes pm)).*1.
Proof. unfold fallbackReasons. by rewrite <- list_fmap_compose. Qed.

Lemma revalidateReasons_keys pm :
  revalidateReasons pm
  = (fun k => "use of revalidate " +:+ k)
      <$> (List.filter (fun e => truthy_number (initialRevalidateSeconds e.2)) (routes pm)).*1.
Proof. unfold revalidateReasons. by rewrite <- list_fmap_compose. Qed.

Lemma not_elem_of_prefixed (prefix s : string) (l : list string) :
  (forall k, s <> prefix +:+ k) -> s ∉ ((fun k => prefix +:+ k) <$> l).
Proof. intros Hne [k [-> _]]%list_elem_of_fmap. by eapply Hne. Qed.

Lemma fixed_not_fallback s pm :
  (forall k, s <> "use of fallback " +:+ k) -> s ∉ fallbackReasons pm.
Proof. rewrite fallbackReasons_keys. apply not_elem_of_prefixed. Qed.

Lemma fixed_not_revalidate s pm :
  (forall k, s <> "use of revalidate " +:+ k) -> s ∉ revalidateReasons pm.
Proof. rewrite revalidateReasons_keys. apply not_elem_of_prefixed. Qed.

Lemma fixed_not_page s pm pages :
  (forall k, s <> "non-static route " +:+ k) -> s ∉ pageReasons pm pages.
Proof. apply not_elem_of_prefixed. Qed.

Lemma middlewareReasons_cases mm :
  middlewareReasons mm = [] \/ middlewareReasons mm = ["use of Next middleware"].
Proof. unfold middlewareReasons. destruct (bool_decide _); auto. Qed.

Lemma appDirectoryReasons_cases app :
  appDirectoryReasons app = [] \/ appDirectoryReasons app = ["use of Next app directory"].
Proof. unfold appDirectoryReasons. destruct (bool_decide _); auto. Qed.

Lemma headerReasons_cases m :
  headerReasons m = [] \/ headerReasons m = ["use of advanced headers"].
Proof. unfold headerReasons. destruct (forallb _ _); auto. Qed.

Lemma redirectReasons_cases m :
  redirectReasons m = [] \/ redirectReasons m = ["use of advanced redirects"].
Proof. unfold redirectReasons. destruct (forallb _ _); auto. Qed.

Lemma rewriteReasons_cases m :
  rewriteReasons m = [] \/ rewriteReasons m = ["use of advanced rewrites"].
Proof.
  unfold rewriteReasons. destruct (usesLaterPhases _); [auto|].
  destruct (forallb _ _); auto.
Qed.

(** Occurrences of a reason, block by block. *)
Lemma occurrences_manifestReasons s mm img app pm pages m :
  occurrences s (manifestReasons mm img app pm pages m)
  = occurrences s (middlewareReasons mm) + occurrences s img
    + occurrences s (appDirectoryReasons app) + occurrences s (fallbackReasons pm)
    + occurrences s (revalidateReasons pm) + occurrences s (pageReasons pm pages)
    + occurrences s (headerReasons m) + occurrences s (redirectReasons m)
    + occurrences s (rewriteReasons m).
Proof. unfold manifestReasons. rewrite !occurrences_app. lia. Qed.

Lemma occurrences_fixed_block (s r : string) (l : list string) :
  l = [] \/ l = [r] -> s <> r -> occurrences s l = 0.
Proof.
  intros [->| ->] Hne; [done|].
  rewrite occurrences_cons, decide_False by congruence. done.
Qed.

Lemma occurrences_single (s : string) : occurrences s [s] = 1.
Proof. rewrite occurrences_cons, decide_True by done. done. Qed.

Lemma wants_of_elem (s : string) (l : list string) :
  s ∈ l -> bool_decide (0 < length l) = true.
Proof. intros Hin. apply bool_decide_eq_true. destruct l; [by apply elem_of_nil in Hin|simpl; lia]. Qed.

Lemma NoDup_filter_keys {V} (f : string * V -> bool) (o : obj V) :
  wf_obj o -> NoDup (List.filter f o).*1.
Proof.
  unfold wf_obj, keys. intros Hnd. eapply sublist_NoDup; [exact Hnd|].
  apply fmap_sublist, List_filter_sublist.
Qed.

(** Count a reason block by block, dropping the blocks that cannot hold it. *)
Ltac count_blocks Himg :=
  rewrite occurrences_manifestReasons;
  try rewrite (occurrences_fixed_block _ _ _ (middlewareReasons_cases _)) by (cbn; discriminate);
  try rewrite (occurrences_fixed_block _ _ _ (imageReasons_cases _ _ _ Himg))
    by (cbn; discriminate);
  try rewrite (occurrences_fixed_block _ _ _ (appDirectoryReasons_cases _)) by (cbn; discriminate);
  try rewrite (occurrences_fixed_block _ _ _ (headerReasons_cases _)) by (cbn; discriminate);
  try rewrite (occurrences_fixed_block _ _ _ (redirectReasons_cases _)) by (cbn; discriminate);
  try rewrite (occurrences_fixed_block _ _ _ (rewriteReasons_cases _)) by (cbn; discriminate);
  try rewrite (occurrences_none _ (fallbackReasons _))
    by (apply fixed_not_fallback; intros ?k; cbn; discriminate);
  try rewrite (occurrences_none _ (revalidateReasons _))
    by (apply fixed_not_revalidate; intros ?k; cbn; discriminate);
  try rewrite (occurrences_none _ (pageReasons _ _))
    by (apply fixed_not_page; intros ?k; cbn; discriminate).

(** ** The claims about [build] *)

(** C1: for every combination of manifests, the [wantsBackend] flag that
    [build] returns is true exactly when the list of reasons the run
    accumulated is non-empty, and false exactly when that list is empty. *)
Theorem C1_wantsBackend_iff_reasons debug out run :
  build debug out = Ok run ->
  (wantsBackend (returned run) = true <-> reasonsForBackend run <> [])
  /\ (wantsBackend (returned run) = false <-> reasonsForBackend run = []).
Proof.
  intros (mm & em & img & app & pm & pages & m & _ & _ & _ & _ & _ & _ & _ & ->)%build_Ok_inv.
  cbn [returned wantsBackend reasonsForBackend finish].
  destruct (manifestReasons mm img app pm pages m) as [|r rs]; cbn.
  - rewrite bool_decide_eq_false_2 by lia. split; split; done.
  - rewrite bool_decide_eq_true_2 by lia. split; split; done.
Qed.

(** C3 (as the code has it): the middleware reason is added exactly when the
    middleware manifest registers at least one middleware, whatever the
    matchers of the registered middleware are; it is added at most once. *)
Theorem C3_middleware_reason_iff_registered debug out run mm :
  build debug out = Ok run ->
  middleware_manifest_json out = Content mm ->
  ("use of Next middleware" ∈ reasonsForBackend run <-> middleware mm <> [])
  /\ occurrences "use of Next middleware" (reasonsForBackend run) <= 1.
Proof.
  intros (mm' & em & img & app & pm & pages & m & Hmm & _ & Himg & _ & _ & _ & _ & ->)%build_Ok_inv.
  rewrite Hmm. intros [= <-]. cbn [reasonsForBackend finish].
  assert (Hocc : occurrences "use of Next middleware" (manifestReasons mm' img app pm pages m)
                 = occurrences "use of Next middleware" (middlewareReasons mm')).
  { count_blocks Himg. lia. }
  rewrite occurrences_pos, Hocc. unfold middlewareReasons, keys.
  destruct (middleware mm') as [|e o]; cbn.
  - rewrite bool_decide_eq_false_2 by lia. rewrite occurrences_nil. split; [split|]; [lia|done|lia].
  - rewrite bool_decide_eq_true_2 by lia. rewrite occurrences_single. split; [split|]; [done|lia|lia].
Qed.

(** C5 (as the code has it): the image-optimization reason is added exactly
    when the export marker reports [isNextImageImported] and the images
    manifest, read in that case, records [unoptimized] as exactly [false]; a
    manifest without the field adds no reason. *)
Theorem C5_image_reason_iff_unoptimized_false debug out run em :
  build debug out = Ok run ->
  export_marker_json out = Content em ->
  ("use of Next Image Optimization" ∈ reasonsForBackend run
   <-> truthy_bool (isNextImageImported em) = true
       /\ exists im, images_manifest_json out = Content im
                     /\ unoptimized (images im) = Some false).
Proof.
  intros (mm & em' & img & app & pm & pages & m & _ & Hem & Himg & _ & _ & _ & _ & ->)%build_Ok_inv.
  rewrite Hem. intros [= <-]. cbn [reasonsForBackend finish].
  assert (Hocc : occurrences "use of Next Image Optimization"
                   (manifestReasons mm img app pm pages m)
                 = occurrences "use of Next Image Optimization" img).
  { count_blocks Himg. lia. }
  rewrite occurrences_pos, Hocc. clear Hocc.
  unfold imageReasons in Himg.
  destruct (truthy_bool (isNextImageImported em')).
  - destruct (images_manifest_json out) as [| |im]; cbn in Himg; try done.
    injection Himg as <-. destruct (bool_decide_reflect (unoptimized (images im) = Some false)).
    + rewrite occurrences_single. split; [|lia]. intros _. split; [done|]. by exists im.
    + rewrite occurrences_nil. split; [lia|]. intros [_ (im' & [= <-] & Hun)]. done.
  - injection Himg as <-. rewrite occurrences_nil. split; [lia|]. intros [? _]. done.
Qed.

(** C6: when the rewrites of the routes manifest are in phased form with a
    non-empty [afterFiles] or [fallback] list, the run has the
    unsupported-rewrites reason, whatever the per-rule predicate says of the
    rules; and no run has that reason more than once. *)
Theorem C6_later_phases_one_reason debug out run m :
  build debug out = Ok run ->
  routes_manifest_json out = Content m ->
  occurrences "use of advanced rewrites" (reasonsForBackend run) <= 1
  /\ (forall before after fallbacks,
        rewrites m = Some (PhasedRewrites before after fallbacks) ->
        default [] after <> [] \/ default [] fallbacks <> [] ->
        occurrences "use of advanced rewrites" (reasonsForBackend run) = 1).
Proof.
  intros (mm & em & img & app & pm & pages & m' & _ & _ & Himg & _ & _ & _ & Hm & ->)%build_Ok_inv.
  rewrite Hm. intros [= <-]. cbn [reasonsForBackend finish].
  assert (Hocc : occurrences "use of advanced rewrites" (manifestReasons mm img app pm pages m')
                 = occurrences "use of advanced rewrites" (rewriteReasons m')).
  { count_blocks Himg. lia. }
  rewrite Hocc. clear Hocc. split.
  - destruct (rewriteReasons_cases m') as [-> | ->];
      [rewrite occurrences_nil; lia|rewrite occurrences_single; lia].
  - intros before after fallbacks Hrw Hlater.
    unfold rewriteReasons, nextJsRewrites, usesLaterPhases. rewrite Hrw. cbn.
    assert (truthy_length after || truthy_length fallbacks = true) as ->.
    { destruct Hlater as [Hne|Hne].
      - destruct after as [[|x l]|]; cbn in *; done.
      - destruct fallbacks as [[|x l]|]; cbn in *; try done. apply orb_true_r. }
    apply occurrences_single.
Qed.

(** C7: a page of the pages manifest that is not one of the reserved pages
    [/_app], [/], [/_error], [/_document], [/404] and is neither a prerendered
    route nor a dynamic route of the prerender manifest gets one non-static
    route reason naming it, and [wantsBackend] is true. *)
Theorem C7_unrendered_page_reason debug out run pm pages page :
  build debug out = Ok run ->
  prerender_manifest_json out = Content pm ->
  pages_manifest_json out = Content pages ->
  wf_obj pages ->
  page ∈ keys pages ->
  page ∉ reservedPages ->
  page ∉ keys (routes pm) ->
  page ∉ keys (dynamicRoutes pm) ->
  occurrences ("non-static route " +:+ page) (reasonsForBackend run) = 1
  /\ wantsBackend (returned run) = true.
Proof.
  intros (mm & em & img & app & pm' & pages' & m & _ & _ & Himg & _ & Hpm & Hpages & _ & ->)%build_Ok_inv.
  rewrite Hpm, Hpages. intros [= <-] [= <-] Hwf Hin Hres Hpre Hdyn.
  cbn [reasonsForBackend returned wantsBackend finish].
  assert (Hocc : occurrences ("non-static route " +:+ page)
                   (manifestReasons mm img app pm' pages' m) = 1).
  { count_blocks Himg. unfold pageReasons. rewrite occurrences_prefixed.
    rewrite occurrences_NoDup; [lia| |].
    - by apply NoDup_List_filter.
    - apply elem_of_List_filter. split; [done|]. unfold isUnrendered.
      apply negb_true_iff, not_true_iff_false. rewrite !orb_true_iff, !includes_spec.
      intros [[?|?]|?]; done. }
  split; [done|]. apply (wants_of_elem ("non-static route " +:+ page)).
  apply occurrences_pos. lia.
Qed.




Lemma toUse_sublist_all rw : getNextjsRewritesToUse rw `sublist_of` allRewrites rw.
Proof.
  destruct rw as [l|before after fallbacks]; cbn; [done|].
  apply sublist_inserts_r. done.
Qed.

(** C9: the header, redirect and rewrite rules that [build] emits are the
    translations of the supported rules of the input list of that kind, in the
    order of the input: the kept rules are a subsequence of the input (an
    unsupported rule is dropped and nothing is reordered), and so is the
    emitted list once the input is translated the same way.  For rewrites the
    input list is the one selected for use, itself a subsequence of all the
    rewrite rules of the manifest. *)
Theorem C9_emitted_rules_are_subsequences debug out run m :
  build debug out = Ok run ->
  routes_manifest_json out = Content m ->
  (exists kept,
     kept `sublist_of` nextJsHeaders m
     /\ (forall rule, rule ∈ kept <-> rule ∈ nextJsHeaders m
                                     /\ isHeaderSupportedByFirebase rule = true)
     /\ br_headers (returned run) = toHostingHeader <$> kept
     /\ br_headers (returned run) `sublist_of` (toHostingHeader <$> nextJsHeaders m))
  /\ (exists kept,
        kept `sublist_of` nextJsRedirects m
        /\ (forall rule, rule ∈ kept <-> rule ∈ nextJsRedirects m
                                        /\ isRedirectSupportedByFirebase rule = true)
        /\ br_redirects (returned run) = toHostingRedirect <$> kept
        /\ br_redirects (returned run) `sublist_of` (toHostingRedirect <$> nextJsRedirects m))
  /\ (exists kept,
        kept `sublist_of` getNextjsRewritesToUse (nextJsRewrites m)
        /\ kept `sublist_of` allRewrites (nextJsRewrites m)
        /\ (forall rule, rule ∈ kept <-> rule ∈ getNextjsRewritesToUse (nextJsRewrites m)
                                        /\ isRewriteSupportedByFirebase rule = true)
        /\ br_rewrites (returned run) = toHostingRewrite <$> kept
        /\ br_rewrites (returned run)
             `sublist_of` (toHostingRewrite <$> allRewrites (nextJsRewrites m))).
Proof.
  intros (mm & em & img & app & pm & pages & m' & _ & _ & _ & _ & _ & _ & Hm & ->)%build_Ok_inv.
  rewrite Hm. intros [= <-]. cbn [returned br_headers br_redirects br_rewrites finish].
  split; [|split].
  - exists (List.filter isHeaderSupportedByFirebase (nextJsHeaders m')).
    split; [apply List_filter_sublist|]. split; [intros; apply elem_of_List_filter|].
    split; [done|]. apply fmap_sublist, List_filter_sublist.
  - exists (List.filter isRedirectSupportedByFirebase (nextJsRedirects m')).
    split; [apply List_filter_sublist|]. split; [intros; apply elem_of_List_filter|].
    split; [done|]. apply fmap_sublist, List_filter_sublist.
  - exists (List.filter isRewriteSupportedByFirebase (getNextjsRewritesToUse (nextJsRewrites m'))).
    split; [apply List_filter_sublist|].
    split; [etrans; [apply List_filter_sublist|apply toUse_sublist_all]|].
    split; [intros; apply elem_of_List_filter|].
    split; [done|]. apply fmap_sublist. etrans; [apply List_filter_sublist|apply toUse_sublist_all].
Qed.

(** ** The static export *)

Lemma exportRoute_skipped sourceDir distDir destDir matchers m path route fs :
  skipsRoute matchers m path route = true ->
  exportRoute sourceDir distDir destDir matchers m path route fs = Ok fs.
Proof.
  unfold skipsRoute, exportRoute. rewrite !orb_true_iff.
  destruct (truthy_number _); [done|].
  destruct (existsb _ matchers); [done|].
  destruct (matchesSome (rewritesRegexesNotSupportedByFirebase m) path); [done|].
  destruct (matchesSome (redirectsRegexesNotSupportedByFirebase m) path); [done|].
  destruct (matchesSome (headersRegexesNotSupportedByFirebase m) path); [done|].
  intros [[[[?|?]|?]|?]|?]; done.
Qed.

Lemma exportRoute_copied sourceDir distDir destDir matchers m path route fs :
  skipsRoute matchers m path route = false ->
  exportRoute sourceDir distDir destDir matchers m path route fs
  = (let isReactServerComponent := endsWith (dataRoute route) ".rsc" in
     let contentDist :=
       join [sourceDir; distDir; "server"; if isReactServerComponent then "app" else "pages"] in
     fs ← mkdir (join [destDir; dirname (htmlPath path)]) fs;
     fs ← copyFile (join [contentDist; htmlPath path]) (join [destDir; htmlPath path]) fs;
     if negb isReactServerComponent then
       fs ← mkdir (join [destDir; dirname (dataRoute route)]) fs;
       copyFile (join [contentDist; dataPath path]) (join [destDir; dataRoute route]) fs
     else Ok fs).
Proof.
  unfold skipsRoute, exportRoute. rewrite !orb_false_iff.
  intros ((((-> & ->) & ->) & ->) & ->). reflexivity.
Qed.


Lemma copyFile_Ok src dest fs content :
  files fs !! src = Some content ->
  copyFile src dest fs = Ok {| files := <[dest := content]> (files fs); dirs := dirs fs |}.
Proof. unfold copyFile. by intros ->. Qed.

Lemma pathExists_file fs path content :
  files fs !! path = Some content -> pathExists fs path = true.
Proof.
  intros H. unfold pathExists. rewrite bool_decide_eq_true_2; [done|]. by eexists.
Qed.

(** C2 (as the code has it): for each of [index.html], [404.html] and
    [500.html], the loop body copies the file of the legacy (pages) build
    location whenever that one exists, also when the component-rendered (app)
    location has the file too; the app location is used only when the pages
    location has nothing of that name. *)
Theorem C2_default_html_prefers_pages sourceDir distDir destDir file fs :
  (forall content,
      files fs !! join [sourceDir; distDir; "server"; "pages"; file] = Some content ->
      exists fs',
        copyDefaultHtml sourceDir distDir destDir file fs = Ok fs'
        /\ files fs' !! join [destDir; file] = Some content
        /\ (forall other, other <> join [destDir; file] -> files fs' !! other = files fs !! other))
  /\ (forall content,
        pathExists fs (join [sourceDir; distDir; "server"; "pages"; file]) = false ->
        files fs !! join [sourceDir; distDir; "server"; "app"; file] = Some content ->
        exists fs',
          copyDefaultHtml sourceDir distDir destDir file fs = Ok fs'
          /\ files fs' !! join [destDir; file] = Some content
          /\ (forall other, other <> join [destDir; file] ->
                            files fs' !! other = files fs !! other)).
Proof.
  split.
  - intros content Hpages. unfold copyDefaultHtml.
    rewrite (pathExists_file _ _ _ Hpages), (copyFile_Ok _ _ _ _ Hpages).
    eexists. split; [done|]. cbn. split; [apply lookup_insert_eq|].
    intros other Hne. by apply lookup_insert_ne.
  - intros content Hno Happ. unfold copyDefaultHtml.
    rewrite Hno, (pathExists_file _ _ _ Happ), (copyFile_Ok _ _ _ _ Happ).
    eexists. split; [done|]. cbn. split; [apply lookup_insert_eq|].
    intros other Hne. by apply lookup_insert_ne.
Qed.


(** *** [path.join] on ordinary segments

    Segments that are not empty, hold no [/] and are neither [.] nor [..] are
    joined with [/] and nothing else happens to them. *)

Lemma split_slashFree s : slashFree s = true -> split "/" s = [s].
Proof.
  induction s as [|c s IH]; cbn; [done|].
  intros [Hc Hs]%andb_true_iff. apply negb_true_iff in Hc. rewrite Hc.
  by rewrite (IH Hs).
Qed.

Lemma split_app_sep a b :
  slashFree a = true -> split "/" (a +:+ String "/" b) = a :: split "/" b.
Proof.
  induction a as [|c a IH]; simpl; [done|].
  intros [Hc Ha]%andb_true_iff. apply negb_true_iff in Hc. rewrite Hc.
  by rewrite (IH Ha).
Qed.

Lemma split_slashFree_pieces s : Forall (fun piece => slashFree piece = true) (split "/" s).
Proof.
  induction s as [|c s IH]; cbn; [by repeat constructor|].
  destruct (Ascii.eqb c "/") eqn:Hc; [by constructor|].
  destruct (split "/" s) as [|piece pieces];
    [constructor; [cbn; by rewrite Hc|constructor]|].
  apply Forall_cons in IH as [Hpiece Hpieces].
  constructor; [|done]. cbn. by rewrite Hc.
Qed.

Lemma concat_cons2 sep x y rest :
  String.concat sep (x :: y :: rest) = x +:+ sep +:+ String.concat sep (y :: rest).
Proof. reflexivity. Qed.

Lemma split_concat segs :
  segs <> [] -> Forall (fun seg => slashFree seg = true) segs ->
  split "/" (String.concat "/" segs) = segs.
Proof.
  induction segs as [|x [|y rest] IH]; intros Hne Hall; [done| |].
  - apply Forall_cons in Hall as [Hx _]. cbn. by apply split_slashFree.
  - apply Forall_cons in Hall as [Hx Hrest]. rewrite concat_cons2.
    change ("/" +:+ ?t) with (String "/" t).
    rewrite (split_app_sep _ _ Hx). by rewrite IH.
Qed.

Lemma concat_nonempty segs :
  segs <> [] -> Forall (fun seg => seg <> "") segs -> String.concat "/" segs <> "".
Proof.
  destruct segs as [|x [|y rest]]; intros Hne Hall; [done| |].
  - by apply Forall_cons in Hall as [Hx _].
  - apply Forall_cons in Hall as [Hx _]. rewrite concat_cons2.
    destruct x; [done|discriminate].
Qed.

Lemma endsWith_slashFree s : slashFree s = true -> endsWith s "/" = false.
Proof.
  induction s as [|c s IH]; cbn; [done|].
  intros [Hc Hs]%andb_true_iff. apply negb_true_iff in Hc.
  rewrite (IH Hs), orb_false_r. rewrite Hc. done.
Qed.

Lemma endsWith_app_slash a b : b <> "" -> endsWith (a +:+ b) "/" = endsWith b "/".
Proof.
  intros Hb. induction a as [|c a IH]; simpl; [done|]. rewrite IH.
  destruct (a +:+ b) eqn:Hab.
  - destruct a; [done|discriminate].
  - by destruct (Ascii.eqb c "/").
Qed.

Lemma endsWith_concat segs :
  segs <> [] -> Forall (fun seg => seg <> "" /\ slashFree seg = true) segs ->
  endsWith (String.concat "/" segs) "/" = false.
Proof.
  induction segs as [|x [|y rest] IH]; intros Hne Hall; [done| |].
  - apply Forall_cons in Hall as [[_ Hx] _]. cbn [String.concat]. by apply endsWith_slashFree.
  - apply Forall_cons in Hall as [_ Hrest]. rewrite concat_cons2.
    rewrite endsWith_app_slash by done.
    assert (Hne' : String.concat "/" (y :: rest) <> "").
    { apply concat_nonempty; [done|]. eapply Forall_impl; [exact Hrest|]. by intros ? [? _]. }
    change ("/" +:+ ?t) with (String "/" t). cbn [endsWith].
    rewrite IH by done. rewrite orb_false_r.
    by destruct (String.concat "/" (y :: rest)).
Qed.

Lemma startsWithSlash_concat segs :
  Forall (fun seg => seg <> "" /\ slashFree seg = true) segs ->
  startsWithSlash (String.concat "/" segs) = false.
Proof.
  destruct segs as [|x [|y rest]]; intros Hall; [done| |];
    apply Forall_cons in Hall as [[Hx Hfree] _]; [cbn [String.concat]|rewrite concat_cons2];
    (destruct x as [|c x]; [done|]); cbn in *;
    apply andb_true_iff in Hfree as [Hc _]; by apply negb_true_iff in Hc.
Qed.

Lemma normalizeStep_plain allow kept seg :
  plainSegment seg -> normalizeStep allow kept seg = seg :: kept.
Proof.
  intros (H1 & H2 & H3 & _). unfold normalizeStep.
  apply String.eqb_neq in H1, H2, H3. by rewrite H1, H2, H3.
Qed.

Lemma foldl_normalizeStep_plain allow kept segs :
  Forall plainSegment segs ->
  foldl (normalizeStep allow) kept segs = rev segs ++ kept.
Proof.
  revert kept. induction segs as [|seg segs IH]; intros kept Hall; [done|].
  apply Forall_cons in Hall as [Hseg Hsegs]. cbn [foldl rev].
  rewrite (normalizeStep_plain _ _ _ Hseg), (IH _ Hsegs). by rewrite <- app_assoc.
Qed.

Lemma join_plain segs :
  segs <> [] -> Forall plainSegment segs -> join segs = String.concat "/" segs.
Proof.
  intros Hne Hall.
  assert (Hfree : Forall (fun seg => slashFree seg = true) segs).
  { eapply Forall_impl; [exact Hall|]. by intros ? (_ & _ & _ & ?). }
  assert (Hboth : Forall (fun seg => seg <> "" /\ slashFree seg = true) segs).
  { eapply Forall_impl; [exact Hall|]. by intros ? (? & _ & _ & ?). }
  assert (Hnonempty : Forall (fun seg => seg <> "") segs).
  { eapply Forall_impl; [exact Hall|]. by intros ? (? & _). }
  assert (Hused : List.filter (fun arg => negb (String.eqb arg "")) segs = segs).
  { clear -Hnonempty. induction Hnonempty as [|x l Hx _ IH]; cbn; [done|].
    apply String.eqb_neq in Hx. by rewrite Hx, IH. }
  unfold join. rewrite Hused. destruct segs as [|x rest] eqn:Hsegs; [done|]. rewrite <- Hsegs in *.
  unfold normalize, normalizeString.
  pose proof (concat_nonempty segs Hne Hnonempty) as Hcat. apply String.eqb_neq in Hcat.
  rewrite Hcat, (startsWithSlash_concat _ Hboth), (endsWith_concat _ Hne Hboth).
  rewrite (split_concat _ Hne Hfree), (foldl_normalizeStep_plain _ _ _ Hall).
  rewrite app_nil_r, rev_involutive. by rewrite Hcat.
Qed.

Lemma parts_plain path :
  (forall seg, seg ∈ parts path -> seg <> "." /\ seg <> "..") ->
  Forall plainSegment (parts path).
Proof.
  intros Hdots. apply Forall_forall. intros seg Hin. specialize (Hdots _ Hin) as [H1 H2].
  unfold parts in Hin. apply elem_of_List_filter in Hin as [Hin Hne].
  apply negb_true_iff, String.eqb_neq in Hne.
  pose proof (split_slashFree_pieces path) as Hfree.
  rewrite Forall_forall in Hfree. specialize (Hfree _ Hin). done.
Qed.

(** C10: for the route path [/], whose list of non-empty segments is empty,
    the exporter resolves the html file to [index.html] and the data file to
    [index.json], not to a bare extension: a route [/] that is not skipped is
    copied from [index.html] to [index.html], and when it is not
    component-rendered its data file is copied from [index.json].  For a path
    with segments the name is the join of its non-empty segments followed by
    [.html], and by [.json] for the data file of a route that is not
    component-rendered; when none of the segments is [.] or [..], the join is
    the segments with [/] between them. *)
Theorem C10_route_file_names :
  (htmlPath "/" = "index.html" /\ dataPath "/" = "index.json" /\ htmlPath "/" <> ".html")
  /\ (forall path,
        parts path <> [] ->
        htmlPath path = join (parts path) +:+ ".html"
        /\ dataPath path = join (parts path) +:+ ".json")
  /\ (forall path,
        parts path <> [] ->
        (forall seg, seg ∈ parts path -> seg <> "." /\ seg <> "..") ->
        htmlPath path = String.concat "/" (parts path) +:+ ".html"
        /\ dataPath path = String.concat "/" (parts path) +:+ ".json")
  /\ (forall sourceDir distDir destDir matchers m route fs,
        skipsRoute matchers m "/" route = false ->
        exportRoute sourceDir distDir destDir matchers m "/" route fs
        = if endsWith (dataRoute route) ".rsc" then
            fs ← mkdir (join [destDir; "."]) fs;
            copyFile (join [join [sourceDir; distDir; "server"; "app"]; "index.html"])
                     (join [destDir; "index.html"]) fs
          else
            fs ← mkdir (join [destDir; "."]) fs;
            fs ← copyFile (join [join [sourceDir; distDir; "server"; "pages"]; "index.html"])
                          (join [destDir; "index.html"]) fs;
            fs ← mkdir (join [destDir; dirname (dataRoute route)]) fs;
            copyFile (join [join [sourceDir; distDir; "server"; "pages"]; "index.json"])
                     (join [destDir; dataRoute route]) fs)
  /\ (forall sourceDir distDir destDir matchers m path route fs,
        skipsRoute matchers m path route = false ->
        exportRoute sourceDir distDir destDir matchers m path route fs
        = let contentDist :=
            join [sourceDir; distDir; "server";
                  if endsWith (dataRoute route) ".rsc" then "app" else "pages"] in
          fs ← mkdir (join [destDir; dirname (htmlPath path)]) fs;
          fs ← copyFile (join [contentDist; htmlPath path]) (join [destDir; htmlPath path]) fs;
          if endsWith (dataRoute route) ".rsc" then Ok fs
          else
            fs ← mkdir (join [destDir; dirname (dataRoute route)]) fs;
            copyFile (join [contentDist; dataPath path]) (join [destDir; dataRoute route]) fs).
Proof.
  assert (Hnames : forall path, parts path <> [] ->
            htmlPath path = join (parts path) +:+ ".html"
            /\ dataPath path = join (parts path) +:+ ".json").
  { intros path Hparts. unfold htmlPath, dataPath, partsOrIndex.
    rewrite bool_decide_eq_true_2; [done|]. destruct (parts path); [done|cbn; lia]. }
  split; [|split; [|split; [|split]]].
  - split; [reflexivity|]. split; [reflexivity|]. discriminate.
  - exact Hnames.
  - intros path Hparts Hdots. destruct (Hnames path Hparts) as [-> ->].
    by rewrite (join_plain _ Hparts (parts_plain _ Hdots)).
  - intros sourceDir distDir destDir matchers m route fs Hskip.
    rewrite (exportRoute_copied _ _ _ _ _ _ _ _ Hskip). cbv zeta.
    change (htmlPath "/") with "index.html". change (dataPath "/") with "index.json".
    change (dirname "index.html") with ".".
    destruct (endsWith (dataRoute route) ".rsc"); cbn [negb].
    + destruct (mkdir _ fs) as [fs1|e]; cbn [mbind result_bind]; [|done].
      by destruct (copyFile _ _ fs1).
    + reflexivity.
  - intros sourceDir distDir destDir matchers m path route fs Hskip.
    rewrite (exportRoute_copied _ _ _ _ _ _ _ _ Hskip). cbv zeta.
    by destruct (endsWith (dataRoute route) ".rsc").
Qed.

(** ** More about [build] *)

Lemma List_filter_nil_iff {A} (f : A -> bool) (l : list A) :
  List.filter f l = [] <-> forall x, x ∈ l -> f x = false.
Proof.
  induction l as [|x l IH]; cbn.
  - split; [intros _ x Hx; by apply elem_of_nil in Hx|done].
  - destruct (f x) eqn:Hx.
    + split; [done|]. intros H. specialize (H x (list_elem_of_here _ _)). congruence.
    + rewrite IH. split.
      * intros H y [->|Hy]%elem_of_cons; auto.
      * intros H y Hy. apply H. by right.
Qed.

Lemma forallb_true_iff {A} (f : A -> bool) (l : list A) :
  forallb f l = true <-> forall x, x ∈ l -> f x = true.
Proof.
  rewrite forallb_forall. split; intros H x Hx; apply H; by apply list_elem_of_In.
Qed.

Lemma forallb_false_iff {A} (f : A -> bool) (l : list A) :
  forallb f l = false <-> exists x, x ∈ l /\ f x = false.
Proof.
  induction l as [|x l IH]; cbn.
  - split; [done|]. intros (x & Hx & _). by apply elem_of_nil in Hx.
  - destruct (f x) eqn:Hx; cbn.
    + rewrite IH. split.
      * intros (y & Hy & Hfy). exists y. split; [by right|done].
      * intros (y & [->|Hy]%elem_of_cons & Hfy); [congruence|by exists y].
    + split; [|done]. intros _. exists x. split; [by left|done].
Qed.

Lemma List_filter_length_le {A} (f : A -> bool) (l : list A) :
  length (List.filter f l) <= length l.
Proof. induction l as [|x l IH]; cbn; [done|]. destruct (f x); cbn; lia. Qed.

Lemma List_filter_length_lt {A} (f : A -> bool) (l : list A) :
  length (List.filter f l) < length l <-> forallb f l = false.
Proof.
  induction l as [|x l IH]; cbn; [split; [lia|done]|].
  pose proof (List_filter_length_le f l).
  destruct (f x); cbn; [rewrite <- IH; lia|split; [done|lia]].
Qed.

Lemma List_filter_partition_length {A} (f : A -> bool) (l : list A) :
  length (List.filter f l) + length (List.filter (fun x => negb (f x)) l) = length l.
Proof. induction l as [|x l IH]; cbn; [done|]. destruct (f x); cbn; lia. Qed.

Lemma fmap_nil_iff {A B} (f : A -> B) (l : list A) : f <$> l = [] <-> l = [].
Proof. split; [apply fmap_nil_inv|by intros ->]. Qed.

Lemma wants_false_iff (reasons : list string) :
  bool_decide (0 < length reasons) = false <-> reasons = [].
Proof.
  destruct reasons; cbn.
  - rewrite bool_decide_eq_false_2 by lia. done.
  - rewrite bool_decide_eq_true_2 by lia. done.
Qed.

Lemma middlewareReasons_nil mm : middlewareReasons mm = [] <-> middleware mm = [].
Proof.
  unfold middlewareReasons, keys. destruct (middleware mm); cbn.
  - rewrite bool_decide_eq_false_2 by lia. done.
  - rewrite bool_decide_eq_true_2 by lia. done.
Qed.

Lemma imageReasons_nil em im img :
  imageReasons em im = Ok img ->
  img = [] <-> (forall v, truthy_bool (isNextImageImported em) = true ->
                          im = Content v -> unoptimized (images v) <> Some false).
Proof.
  unfold imageReasons. destruct (truthy_bool _); cbn.
  - destruct im as [| |v]; cbn; try done.
    destruct (bool_decide_reflect (unoptimized (images v) = Some false)) as [Hun|Hun];
      intros [= <-].
    + split; [done|]. intros H. by destruct (H v eq_refl eq_refl).
    + split; [|done]. intros _ v' _ [= <-]. done.
  - intros [= <-]. split; [|done]. intros _ v Hfalse. done.
Qed.

Lemma appDirectoryReasons_nil f app :
  readAppPathRoutes f = Ok app ->
  appDirectoryReasons app = [] <-> (forall v, f = Content v -> v = []).
Proof.
  unfold readAppPathRoutes, appDirectoryReasons, keys.
  destruct f as [| |v]; cbn; try done; intros [= <-]; cbn.
  - rewrite bool_decide_eq_false_2 by lia. done.
  - destruct v as [|e v]; cbn.
    + rewrite bool_decide_eq_false_2 by lia. split; [|done]. by intros _ v' [= <-].
    + rewrite bool_decide_eq_true_2 by lia. split; [done|]. intros H. by specialize (H _ eq_refl).
Qed.

Lemma fallbackReasons_nil pm :
  fallbackReasons pm = []
  <-> forall key it, (key, it) ∈ dynamicRoutes pm -> fallback it = FallbackFalse.
Proof.
  unfold fallbackReasons. rewrite fmap_nil_iff, List_filter_nil_iff. unfold hasFallback. split.
  - intros H key it Hin. specialize (H _ Hin). cbn in H. by destruct (fallback it).
  - intros H [key it] Hin. cbn. by rewrite (H _ _ Hin).
Qed.

Lemma revalidateReasons_nil pm :
  revalidateReasons pm = []
  <-> forall key it, (key, it) ∈ routes pm ->
                     truthy_number (initialRevalidateSeconds it) = false.
Proof.
  unfold revalidateReasons. rewrite fmap_nil_iff, List_filter_nil_iff. split.
  - intros H key it Hin. exact (H _ Hin).
  - intros H [key it] Hin. exact (H _ _ Hin).
Qed.

Lemma isUnrendered_false pm page :
  isUnrendered pm page = false
  <-> page ∈ reservedPages \/ page ∈ keys (routes pm) \/ page ∈ keys (dynamicRoutes pm).
Proof.
  unfold isUnrendered. rewrite negb_false_iff, !orb_true_iff, !includes_spec.
  split; [intros [[?|?]|?]; auto|intros [?|[?|?]]; auto].
Qed.

Lemma pageReasons_nil pm pages :
  pageReasons pm pages = []
  <-> forall page, page ∈ keys pages ->
                   page ∈ reservedPages \/ page ∈ keys (routes pm)
                   \/ page ∈ keys (dynamicRoutes pm).
Proof.
  unfold pageReasons. rewrite fmap_nil_iff, List_filter_nil_iff.
  split; intros H page Hin; apply isUnrendered_false; auto.
Qed.

Lemma headerReasons_nil m :
  headerReasons m = [] <-> forallb isHeaderSupportedByFirebase (nextJsHeaders m) = true.
Proof. unfold headerReasons. by destruct (forallb _ _). Qed.

Lemma redirectReasons_nil m :
  redirectReasons m = [] <-> forallb isRedirectSupportedByFirebase (nextJsRedirects m) = true.
Proof. unfold redirectReasons. by destruct (forallb _ _). Qed.

Lemma rewriteReasons_nil m :
  rewriteReasons m = []
  <-> usesLaterPhases (nextJsRewrites m) = false
      /\ forallb isRewriteSupportedByFirebase (getNextjsRewritesToUse (nextJsRewrites m)) = true.
Proof.
  unfold rewriteReasons. destruct (usesLaterPhases _); [by split; [|intros []]|].
  destruct (forallb _ _); by split; [|intros []].
Qed.

Lemma manifestReasons_nil out mm em img app pm pages m :
  imageReasons em (images_manifest_json out) = Ok img ->
  readAppPathRoutes (app_path_routes_manifest_json out) = Ok app ->
  manifestReasons mm img app pm pages m = [] <-> staticManifests out mm em pm pages m.
Proof.
  intros Himg Happ. unfold manifestReasons, staticManifests. rewrite !app_nil.
  rewrite middlewareReasons_nil, (imageReasons_nil _ _ _ Himg),
    (appDirectoryReasons_nil _ _ Happ), fallbackReasons_nil, revalidateReasons_nil,
    pageReasons_nil, headerReasons_nil, redirectReasons_nil, rewriteReasons_nil,
    !forallb_true_iff.
  split; [intros (?&?&?&?&?&?&?&?&?&?)|intros (?&?&?&?&?&?&?&?&?&?)]; repeat split; done.
Qed.

(** X1: a run of [build] wants no backend exactly when nothing in the
    manifests asks for one: no registered middleware, no optimized images in
    use, no app directory route, every dynamic route with [fallback: false], no
    revalidated route, every page reserved or among the prerendered or dynamic
    routes, every header, redirect and rewrite rule supported and nothing in
    the later rewrite phases; the reasons are then empty and nothing is
    printed. *)
Theorem X1_static_iff_no_backend debug out run :
  build debug out = Ok run ->
  exists mm em pm pages m,
    middleware_manifest_json out = Content mm
    /\ export_marker_json out = Content em
    /\ prerender_manifest_json out = Content pm
    /\ pages_manifest_json out = Content pages
    /\ routes_manifest_json out = Content m
    /\ (wantsBackend (returned run) = false <-> staticManifests out mm em pm pages m)
    /\ (wantsBackend (returned run) = false ->
        reasonsForBackend run = [] /\ console run = []).
Proof.
  intros (mm & em & img & app & pm & pages & m & Hmm & Hem & Himg & Happ & Hpm & Hpages & Hm
          & ->)%build_Ok_inv.
  exists mm, em, pm, pages, m. do 5 (split; [done|]).
  cbn [returned wantsBackend reasonsForBackend console finish]. split.
  - rewrite wants_false_iff. by apply manifestReasons_nil.
  - intros Hwants. rewrite Hwants. split; [by apply wants_false_iff|done].
Qed.

(** X2: a dynamic route of the prerender manifest gets its fallback reason
    exactly when its [fallback] is anything but [false] (a page or [null]);
    a route with [fallback: false] gets none, and with distinct keys no route
    is reported twice. *)
Theorem X2_fallback_reason_iff debug out run pm key :
  build debug out = Ok run ->
  prerender_manifest_json out = Content pm ->
  (("use of fallback " +:+ key) ∈ reasonsForBackend run
   <-> exists it, (key, it) ∈ dynamicRoutes pm /\ fallback it <> FallbackFalse)
  /\ (wf_obj (dynamicRoutes pm) ->
      occurrences ("use of fallback " +:+ key) (reasonsForBackend run) <= 1).
Proof.
  intros (mm & em & img & app & pm' & pages & m & _ & _ & Himg & _ & Hpm & _ & _ & ->)%build_Ok_inv.
  rewrite Hpm. intros [= <-]. cbn [reasonsForBackend finish].
  assert (Hocc : occurrences ("use of fallback " +:+ key) (manifestReasons mm img app pm' pages m)
                 = occurrences key
                     (List.filter (fun e => hasFallback e.2) (dynamicRoutes pm')).*1).
  { count_blocks Himg. rewrite fallbackReasons_keys, occurrences_prefixed. lia. }
  split.
  - rewrite occurrences_pos, Hocc, <- occurrences_pos, list_elem_of_fmap. split.
    + intros ([k it] & -> & [Hin Hfb]%elem_of_List_filter). exists it. split; [done|].
      unfold hasFallback in Hfb. cbn in Hfb. by destruct (fallback it).
    + intros (it & Hin & Hfb). exists (key, it). split; [done|].
      apply elem_of_List_filter. split; [done|]. unfold hasFallback. cbn.
      by destruct (fallback it).
  - intros Hwf. rewrite Hocc.
    destruct (decide (key ∈ (List.filter (fun e => hasFallback e.2) (dynamicRoutes pm')).*1))
      as [Hin|Hnot].
    + rewrite occurrences_NoDup; [done| |done]. by apply NoDup_filter_keys.
    + rewrite occurrences_none by done. lia.
Qed.

(** X3: the app directory reason is added exactly when
    [app-path-routes-manifest.json] exists and has at least one route; it is
    never added twice. *)
Theorem X3_app_directory_reason_iff debug out run :
  build debug out = Ok run ->
  ("use of Next app directory" ∈ reasonsForBackend run
   <-> exists app, app_path_routes_manifest_json out = Content app /\ app <> [])
  /\ occurrences "use of Next app directory" (reasonsForBackend run) <= 1.
Proof.
  intros (mm & em & img & app & pm & pages & m & _ & _ & Himg & Happ & _ & _ & _ & ->)%build_Ok_inv.
  cbn [reasonsForBackend finish].
  assert (Hocc : occurrences "use of Next app directory" (manifestReasons mm img app pm pages m)
                 = occurrences "use of Next app directory" (appDirectoryReasons app)).
  { count_blocks Himg. lia. }
  rewrite occurrences_pos, Hocc. clear Hocc.
  pose proof (appDirectoryReasons_nil _ _ Happ) as Hnil.
  destruct (appDirectoryReasons_cases app) as [Hr|Hr]; rewrite Hr in *.
  - rewrite occurrences_nil. split; [|lia]. split; [lia|].
    intros (v & Hv & Hne). destruct Hne. apply Hnil; done.
  - rewrite occurrences_single. split; [|lia]. split; [|lia]. intros _.
    destruct (app_path_routes_manifest_json out) as [| |v]; cbn in Happ; try done.
    + injection Happ as <-. done.
    + injection Happ as <-. exists v. split; [done|]. intros ->. done.
Qed.

(** X4: the unsupported-headers reason is reported exactly when [build] left
    out at least one header rule, that is when some header rule fails its
    predicate; and the same for redirects.  Reasons and emitted rules never
    disagree. *)
Theorem X4_rule_reason_iff_rule_dropped debug out run m :
  build debug out = Ok run ->
  routes_manifest_json out = Content m ->
  ("use of advanced headers" ∈ reasonsForBackend run
   <-> length (br_headers (returned run)) < length (nextJsHeaders m))
  /\ ("use of advanced headers" ∈ reasonsForBackend run
      <-> exists rule, rule ∈ nextJsHeaders m /\ isHeaderSupportedByFirebase rule = false)
  /\ ("use of advanced redirects" ∈ reasonsForBackend run
      <-> length (br_redirects (returned run)) < length (nextJsRedirects m))
  /\ ("use of advanced redirects" ∈ reasonsForBackend run
      <-> exists rule, rule ∈ nextJsRedirects m /\ isRedirectSupportedByFirebase rule = false).
Proof.
  intros (mm & em & img & app & pm & pages & m' & _ & _ & Himg & _ & _ & _ & Hm & ->)%build_Ok_inv.
  rewrite Hm. intros [= <-].
  cbn [reasonsForBackend returned br_headers br_redirects finish].
  assert (Hh : "use of advanced headers" ∈ manifestReasons mm img app pm pages m'
               <-> forallb isHeaderSupportedByFirebase (nextJsHeaders m') = false).
  { rewrite occurrences_pos.
    replace (occurrences "use of advanced headers" (manifestReasons mm img app pm pages m'))
      with (occurrences "use of advanced headers" (headerReasons m'))
      by (count_blocks Himg; lia).
    unfold headerReasons. destruct (forallb isHeaderSupportedByFirebase _);
      [rewrite occurrences_nil|rewrite occurrences_single]; split; (done || lia). }
  assert (Hr : "use of advanced redirects" ∈ manifestReasons mm img app pm pages m'
               <-> forallb isRedirectSupportedByFirebase (nextJsRedirects m') = false).
  { rewrite occurrences_pos.
    replace (occurrences "use of advanced redirects" (manifestReasons mm img app pm pages m'))
      with (occurrences "use of advanced redirects" (redirectReasons m'))
      by (count_blocks Himg; lia).
    unfold redirectReasons. destruct (forallb isRedirectSupportedByFirebase _);
      [rewrite occurrences_nil|rewrite occurrences_single]; split; (done || lia). }
  rewrite !length_fmap, !List_filter_length_lt, <- !forallb_false_iff. done.
Qed.

(** X5: the unsupported-rewrites reason is reported exactly when the rewrites
    use the [afterFiles] or [fallback] phase or [build] left out at least one
    of the rewrites selected for use. *)
Theorem X5_rewrite_reason_iff debug out run m :
  build debug out = Ok run ->
  routes_manifest_json out = Content m ->
  ("use of advanced rewrites" ∈ reasonsForBackend run
   <-> usesLaterPhases (nextJsRewrites m) = true
       \/ length (br_rewrites (returned run))
          < length (getNextjsRewritesToUse (nextJsRewrites m))).
Proof.
  intros (mm & em & img & app & pm & pages & m' & _ & _ & Himg & _ & _ & _ & Hm & ->)%build_Ok_inv.
  rewrite Hm. intros [= <-]. cbn [reasonsForBackend returned br_rewrites finish].
  rewrite occurrences_pos.
  replace (occurrences "use of advanced rewrites" (manifestReasons mm img app pm pages m'))
    with (occurrences "use of advanced rewrites" (rewriteReasons m'))
    by (count_blocks Himg; lia).
  rewrite length_fmap, List_filter_length_lt. unfold rewriteReasons.
  destruct (usesLaterPhases _); [rewrite occurrences_single; split; [auto|lia]|].
  destruct (forallb _ _); [rewrite occurrences_nil|rewrite occurrences_single].
  - split; [lia|]. intros [?|?]; done.
  - split; [auto|lia].
Qed.

(** X6: the reasons are accumulated in a fixed order: middleware, image
    optimization, app directory, then one reason per dynamic route with a
    fallback, one per revalidated route and one per unrendered page, each group
    in the order of its manifest, then headers, redirects and rewrites. *)
Theorem X6_reasons_in_order debug out run :
  build debug out = Ok run ->
  exists mm em img app pm pages m,
    middleware_manifest_json out = Content mm
    /\ export_marker_json out = Content em
    /\ imageReasons em (images_manifest_json out) = Ok img
    /\ readAppPathRoutes (app_path_routes_manifest_json out) = Ok app
    /\ prerender_manifest_json out = Content pm
    /\ pages_manifest_json out = Content pages
    /\ routes_manifest_json out = Content m
    /\ reasonsForBackend run
       = middlewareReasons mm ++ img ++ appDirectoryReasons app
         ++ ((fun e : string * DynamicSsgRoute => "use of fallback " +:+ e.1)
               <$> List.filter (fun e => hasFallback e.2) (dynamicRoutes pm))
         ++ ((fun e : string * SsgRoute => "use of revalidate " +:+ e.1)
               <$> List.filter (fun e => truthy_number (initialRevalidateSeconds e.2))
                               (routes pm))
         ++ ((fun key => "non-static route " +:+ key)
               <$> List.filter (isUnrendered pm) (keys pages))
         ++ headerReasons m ++ redirectReasons m ++ rewriteReasons m.
Proof.
  intros (mm & em & img & app & pm & pages & m & ? & ? & ? & ? & ? & ? & ? & ->)%build_Ok_inv.
  by exists mm, em, img, app, pm, pages, m.
Qed.

(** X7: [process.env.DEBUG] changes what is printed and nothing else: with
    and without it [build] fails with the same error or returns the same
    value with the same reasons. *)
Theorem X7_debug_changes_only_the_report out :
  match build true out, build false out with
  | Ok verbose, Ok quiet =>
      returned verbose = returned quiet
      /\ reasonsForBackend verbose = reasonsForBackend quiet
  | Err e1, Err e2 => e1 = e2
  | _, _ => False
  end.
Proof.
  rewrite !build_blocks. unfold build_by_blocks.
  destruct (middleware_manifest_json out) as [| |mm]; cbn; try done.
  destruct (export_marker_json out) as [| |em]; cbn; try done.
  destruct (imageReasons em (images_manifest_json out)) as [img|e]; cbn; [|done].
  destruct (readAppPathRoutes (app_path_routes_manifest_json out)) as [app|e]; cbn; [|done].
  destruct (prerender_manifest_json out) as [| |pm]; cbn; try done.
  destruct (pages_manifest_json out) as [| |pages]; cbn; try done.
  destruct (routes_manifest_json out) as [| |m]; cbn; done.
Qed.





Lemma imageReasons_not_imported em im1 im2 :
  truthy_bool (isNextImageImported em) = false ->
  imageReasons em im1 = imageReasons em im2.
Proof. unfold imageReasons. by intros ->. Qed.

(** X9: when the export marker does not report an imported image component,
    the images manifest is not read: whether it is there, malformed or says
    anything has no effect on the outcome of [build]. *)
Theorem X9_images_manifest_unread_without_marker debug out other :
  (forall em, export_marker_json out = Content em ->
              truthy_bool (isNextImageImported em) = false) ->
  build debug (withImagesManifest out other) = build debug out.
Proof.
  intros Hmarker. rewrite !build_blocks. unfold build_by_blocks.
  cbn [withImagesManifest middleware_manifest_json export_marker_json images_manifest_json
       app_path_routes_manifest_json prerender_manifest_json pages_manifest_json
       routes_manifest_json].
  destruct (middleware_manifest_json out) as [| |mm]; cbn [readJSON mbind result_bind]; try done.
  destruct (export_marker_json out) as [| |em]; cbn [readJSON mbind result_bind]; try done.
  by rewrite (imageReasons_not_imported em other (images_manifest_json out) (Hmarker em eq_refl)).
Qed.

(** X10: [build] and the exporter split the rules of the routes manifest in
    two with the same predicates: each header, redirect and selected rewrite
    rule is either emitted by [build] or has its regular expression among
    those the exporter skips routes for, so the two counts add up to the
    number of rules. *)
Theorem X10_rules_emitted_or_skipped_for debug out run m :
  build debug out = Ok run ->
  routes_manifest_json out = Content m ->
  length (br_headers (returned run)) + length (headersRegexesNotSupportedByFirebase m)
  = length (nextJsHeaders m)
  /\ length (br_redirects (returned run)) + length (redirectsRegexesNotSupportedByFirebase m)
     = length (nextJsRedirects m)
  /\ length (br_rewrites (returned run)) + length (rewritesRegexesNotSupportedByFirebase m)
     = length (getNextjsRewritesToUse (nextJsRewrites m))
  /\ (forall rule, rule ∈ nextJsHeaders m ->
        if isHeaderSupportedByFirebase rule
        then toHostingHeader rule ∈ br_headers (returned run)
        else Header.regex rule ∈ headersRegexesNotSupportedByFirebase m)
  /\ (forall rule, rule ∈ nextJsRedirects m ->
        if isRedirectSupportedByFirebase rule
        then toHostingRedirect rule ∈ br_redirects (returned run)
        else Redirect.regex rule ∈ redirectsRegexesNotSupportedByFirebase m)
  /\ (forall rule, rule ∈ getNextjsRewritesToUse (nextJsRewrites m) ->
        if isRewriteSupportedByFirebase rule
        then toHostingRewrite rule ∈ br_rewrites (returned run)
        else Rewrite.regex rule ∈ rewritesRegexesNotSupportedByFirebase m).
Proof.
  intros (mm & em & img & app & pm & pages & m' & _ & _ & _ & _ & _ & _ & Hm & ->)%build_Ok_inv.
  rewrite Hm. intros [= <-].
  cbn [returned br_headers br_redirects br_rewrites finish].
  unfold headersRegexesNotSupportedByFirebase, redirectsRegexesNotSupportedByFirebase,
    rewritesRegexesNotSupportedByFirebase.
  rewrite !length_fmap, !List_filter_partition_length.
  split; [done|]. split; [done|]. split; [done|].
  split; [|split]; intros rule Hin.
  - destruct (isHeaderSupportedByFirebase rule) eqn:Hs;
      apply list_elem_of_fmap; exists rule; (split; [done|]);
      apply elem_of_List_filter; by rewrite Hs.
  - destruct (isRedirectSupportedByFirebase rule) eqn:Hs;
      apply list_elem_of_fmap; exists rule; (split; [done|]);
      apply elem_of_List_filter; by rewrite Hs.
  - destruct (isRewriteSupportedByFirebase rule) eqn:Hs;
      apply list_elem_of_fmap; exists rule; (split; [done|]);
      apply elem_of_List_filter; by rewrite Hs.
Qed.

(** ** More about the static export *)

Lemma matchesSome_nil path : matchesSome [] path = false.
Proof. reflexivity. Qed.

Lemma unsupported_regexes_nil {A} (f : A -> bool) (regex : A -> string) (l : list A) :
  forallb f l = true -> regex <$> List.filter (fun x => negb (f x)) l = [].
Proof.
  intros Hall. apply fmap_nil_iff, List_filter_nil_iff. intros x Hx.
  rewrite forallb_true_iff in Hall. by rewrite (Hall x Hx).
Qed.

(** X11: when [build] wants no backend, the exporter skips none of the
    prerendered routes: with no revalidated route, no middleware and every rule
    supported, none of the conditions under which the loop continues holds. *)
Theorem X11_static_build_exports_every_route debug out run :
  build debug out = Ok run ->
  wantsBackend (returned run) = false ->
  exists mm pm m,
    middleware_manifest_json out = Content mm
    /\ prerender_manifest_json out = Content pm
    /\ routes_manifest_json out = Content m
    /\ forall path route,
         (path, route) ∈ routes pm ->
         skipsRoute (concat (matchers <$> values (middleware mm))) m path route = false.
Proof.
  intros (mm & em & img & app & pm & pages & m & Hmm & Hem & Himg & Happ & Hpm & Hpages & Hm
          & ->)%build_Ok_inv.
  cbn [returned wantsBackend finish]. intros Hwants.
  apply wants_false_iff, (manifestReasons_nil out mm em img app pm pages m Himg Happ) in Hwants.
  destruct Hwants as (Hmw & _ & _ & _ & Hreval & _ & Hh & Hr & _ & Hw).
  exists mm, pm, m. do 3 (split; [done|]). intros path route Hin.
  unfold skipsRoute, headersRegexesNotSupportedByFirebase,
    redirectsRegexesNotSupportedByFirebase, rewritesRegexesNotSupportedByFirebase.
  rewrite (Hreval _ _ Hin), Hmw.
  rewrite !unsupported_regexes_nil by by apply forallb_true_iff.
  reflexivity.
Qed.

Lemma mkdir_Ok path fs :
  mkdir path fs
  = Ok {| files := files fs;
          dirs := list_to_set (withParents (String.length path) path) ∪ dirs fs |}.
Proof. reflexivity. Qed.

Lemma keeps_refl fs : keeps fs fs.
Proof. by split. Qed.

Lemma keeps_trans fs1 fs2 fs3 : keeps fs1 fs2 -> keeps fs2 fs3 -> keeps fs1 fs3.
Proof.
  intros [Hf1 Hd1] [Hf2 Hd2]. split; [|by etrans].
  intros path Hpath. by apply Hf2, Hf1.
Qed.

Lemma mkdir_keeps path fs fs' : mkdir path fs = Ok fs' -> keeps fs fs'.
Proof. intros [= <-]. split; [done|]. cbn. apply union_subseteq_r. Qed.

Lemma copyFile_keeps src dest fs fs' : copyFile src dest fs = Ok fs' -> keeps fs fs'.
Proof.
  unfold copyFile. destruct (files fs !! src) as [content|]; [|by destruct (bool_decide _)].
  intros [= <-]. split; [|done]. cbn. intros path Hpath.
  destruct (decide (dest = path)) as [->|Hne].
  - rewrite lookup_insert_eq. by eexists.
  - by rewrite lookup_insert_ne.
Qed.

Lemma for_each_keeps {A} (l : list A) (body : A -> FileSystem -> result FileSystem) fs fs' :
  (forall x fs1 fs2, body x fs1 = Ok fs2 -> keeps fs1 fs2) ->
  for_each l body fs = Ok fs' -> keeps fs fs'.
Proof.
  intros Hbody. revert fs. induction l as [|x l IH]; intros fs; cbn.
  - intros [= <-]. apply keeps_refl.
  - destruct (body x fs) as [fs1|e] eqn:Hx; cbn; [|done].
    intros Hrest. eapply keeps_trans; [by eapply Hbody|by apply IH].
Qed.


Lemma copyDefaultHtml_keeps sourceDir distDir destDir file fs fs' :
  copyDefaultHtml sourceDir distDir destDir file fs = Ok fs' -> keeps fs fs'.
Proof.
  unfold copyDefaultHtml. destruct (pathExists fs _); [apply copyFile_keeps|].
  destruct (pathExists fs _); [apply copyFile_keeps|]. intros [= <-]. apply keeps_refl.
Qed.

Lemma exportRoute_keeps sourceDir distDir destDir matchers m path route fs fs' :
  exportRoute sourceDir distDir destDir matchers m path route fs = Ok fs' -> keeps fs fs'.
Proof.
  destruct (skipsRoute matchers m path route) eqn:Hskip.
  - rewrite (exportRoute_skipped _ _ _ _ _ _ _ _ Hskip). intros [= <-]. apply keeps_refl.
  - rewrite (exportRoute_copied _ _ _ _ _ _ _ _ Hskip). cbv zeta.
    destruct (mkdir _ fs) as [fs1|e] eqn:H1; cbn [mbind result_bind]; [|done].
    destruct (copyFile _ _ fs1) as [fs2|e] eqn:H2; cbn [mbind result_bind]; [|done].
    apply mkdir_keeps in H1. apply copyFile_keeps in H2.
    destruct (negb _).
    + destruct (mkdir _ fs2) as [fs3|e] eqn:H3; cbn [mbind result_bind]; [|done].
      intros H4. apply mkdir_keeps in H3. apply copyFile_keeps in H4.
      eapply keeps_trans; [exact H1|]. eapply keeps_trans; [exact H2|].
      eapply keeps_trans; [exact H3|exact H4].
    + intros [= <-]. eapply keeps_trans; [exact H1|exact H2].
Qed.





(** X15: the exporter's loops never remove anything: after the loop over the
    default html files and after the loop over the routes, every file and
    every directory that was there before is still there. *)
Theorem X15_export_never_removes sourceDir distDir destDir matchers m routes fs fs' :
  (for_each defaultHtmlFiles (copyDefaultHtml sourceDir distDir destDir) fs = Ok fs' ->
   keeps fs fs')
  /\ (exportRoutes sourceDir distDir destDir matchers m routes fs = Ok fs' -> keeps fs fs').
Proof.
  split.
  - apply for_each_keeps. intros file fs1 fs2. apply copyDefaultHtml_keeps.
  - apply for_each_keeps. intros [path route] fs1 fs2. apply exportRoute_keeps.
Qed.

Lemma string_length_app (a b : string) :
  String.length (a +:+ b) = String.length a + String.length b.
Proof. induction a as [|c a IH]; simpl; [done|]. by rewrite IH. Qed.

Lemma string_length_zero (s : string) : String.length s = 0 -> s = "".
Proof. by destruct s. Qed.

Lemma endsWith_app (a s : string) : endsWith (a +:+ s) s = true.
Proof.
  induction a as [|c a IH]; simpl.
  - destruct s; simpl; [done|]. by rewrite Ascii.eqb_refl, String.eqb_refl.
  - rewrite IH. apply orb_true_r.
Qed.

Lemma normalize_nonempty path : normalize path <> "".
Proof.
  unfold normalize. destruct (String.eqb path ""); [done|]. cbv zeta.
  destruct (String.eqb (normalizeString path _) "") eqn:Hp.
  - by destruct (startsWithSlash path), (endsWith path "/").
  - apply String.eqb_neq in Hp.
    destruct (startsWithSlash path); [done|].
    destruct (endsWith path "/"); [|done].
    intros Hnil. apply (f_equal String.length) in Hnil.
    rewrite string_length_app in Hnil. cbn in Hnil. lia.
Qed.

Lemma join_nonempty args : join args <> "".
Proof.
  unfold join. destruct (List.filter _ args); [done|apply normalize_nonempty].
Qed.

(** X16: for every route path, whatever its segments, the html file name is
    a non-empty name followed by [.html] and the data file name one followed
    by [.json]: [path.join] never returns the empty string, so no route
    resolves to a bare extension. *)
Theorem X16_file_names_never_bare_extension path :
  htmlPath path <> ".html"
  /\ dataPath path <> ".json"
  /\ endsWith (htmlPath path) ".html" = true
  /\ endsWith (dataPath path) ".json" = true
  /\ 5 < String.length (htmlPath path)
  /\ 5 < String.length (dataPath path).
Proof.
  unfold htmlPath, dataPath.
  pose proof (join_nonempty (partsOrIndex path)) as Hjoin.
  assert (Hlen : 0 < String.length (join (partsOrIndex path))).
  { destruct (join (partsOrIndex path)); [done|cbn; lia]. }
  rewrite !endsWith_app, !string_length_app. cbn [String.length].
  repeat split; try lia.
  - intros H. apply (f_equal String.length) in H. rewrite string_length_app in H.
    cbn in H. lia.
  - intros H. apply (f_equal String.length) in H. rewrite string_length_app in H.
    cbn in H. lia.
Qed.

Lemma split_nonempty sep s : split sep s <> [].
Proof.
  destruct s as [|c s]; cbn; [done|].
  destruct (Ascii.eqb c sep); [done|]. by destruct (split sep s).
Qed.

Lemma split_trailing_separator s : split "/" (s +:+ "/") = split "/" s ++ [""].
Proof.
  induction s as [|c s IH]; simpl; [done|].
  destruct (Ascii.eqb c "/"); [by rewrite IH|].
  rewrite IH. pose proof (split_nonempty "/" s). by destruct (split "/" s).
Qed.

Lemma List_filter_app {A} (f : A -> bool) (l1 l2 : list A) :
  List.filter f (l1 ++ l2) = List.filter f l1 ++ List.filter f l2.
Proof. induction l1 as [|x l1 IH]; cbn; [done|]. destruct (f x); cbn; by rewrite IH. Qed.

(** X17: empty segments do not count: a slash in front of a route path or
    after it changes neither its segments nor the files it resolves to, so
    [/about], [//about] and [/about/] are exported to the same file. *)
Theorem X17_extra_slashes_are_ignored path :
  parts ("/" +:+ path) = parts path
  /\ parts (path +:+ "/") = parts path
  /\ htmlPath ("/" +:+ path) = htmlPath path
  /\ htmlPath (path +:+ "/") = htmlPath path
  /\ dataPath ("/" +:+ path) = dataPath path
  /\ dataPath (path +:+ "/") = dataPath path.
Proof.
  assert (H1 : parts ("/" +:+ path) = parts path) by reflexivity.
  assert (H2 : parts (path +:+ "/") = parts path).
  { unfold parts. rewrite split_trailing_separator, List_filter_app. cbn. apply app_nil_r. }
  unfold htmlPath, dataPath, partsOrIndex. rewrite H1, H2. done.
Qed.

Lemma FileSystem_eq (fs1 fs2 : FileSystem) :
  files fs1 = files fs2 -> dirs fs1 = dirs fs2 -> fs1 = fs2.
Proof. destruct fs1, fs2. cbn. by intros -> ->. Qed.

Lemma copyFile_again src dest fs fs' :
  copyFile src dest fs = Ok fs' -> copyFile src dest fs' = Ok fs'.
Proof.
  unfold copyFile. destruct (files fs !! src) as [content|] eqn:Hsrc;
    [|by destruct (bool_decide _)].
  intros [= <-]. cbn.
  assert (<[dest:=content]> (files fs) !! src = Some content) as ->.
  { destruct (decide (dest = src)) as [->|Hne];
      [apply lookup_insert_eq|by rewrite lookup_insert_ne]. }
  f_equal. apply FileSystem_eq; [cbn; apply insert_insert_eq|done].
Qed.

Lemma copyFile_source src dest fs fs' :
  copyFile src dest fs = Ok fs' ->
  exists content,
    files fs !! src = Some content
    /\ fs' = {| files := <[dest:=content]> (files fs); dirs := dirs fs |}.
Proof.
  unfold copyFile. destruct (files fs !! src) as [content|]; [|by destruct (bool_decide _)].
  intros [= <-]. by exists content.
Qed.

(** X18: a default html file that is in neither build location is no error:
    nothing is copied and the loop goes on.  And copying is idempotent: run
    on its own result, the loop body for a file leaves that result as it
    is. *)
Theorem X18_default_html_optional_and_idempotent sourceDir distDir destDir file fs :
  (pathExists fs (join [sourceDir; distDir; "server"; "pages"; file]) = false ->
   pathExists fs (join [sourceDir; distDir; "server"; "app"; file]) = false ->
   copyDefaultHtml sourceDir distDir destDir file fs = Ok fs)
  /\ (forall fs',
        copyDefaultHtml sourceDir distDir destDir file fs = Ok fs' ->
        copyDefaultHtml sourceDir distDir destDir file fs' = Ok fs').
Proof.
  split; [unfold copyDefaultHtml; by intros -> ->|].
  intros fs'. unfold copyDefaultHtml.
  set (pagesPath := join [sourceDir; distDir; "server"; "pages"; file]).
  set (appPath := join [sourceDir; distDir; "server"; "app"; file]).
  set (dest := join [destDir; file]).
  destruct (pathExists fs pagesPath) eqn:Hpages.
  - intros Hcopy. pose proof (copyFile_source _ _ _ _ Hcopy) as (content & Hsrc & ->).
    rewrite (pathExists_file _ pagesPath content).
    + apply (copyFile_again _ _ _ _ Hcopy).
    + cbn. destruct (decide (dest = pagesPath)) as [->|Hne];
        [apply lookup_insert_eq|by rewrite lookup_insert_ne].
  - destruct (pathExists fs appPath) eqn:Happ; [|intros [= <-]; by rewrite Hpages, Happ].
    intros Hcopy. pose proof (copyFile_source _ _ _ _ Hcopy) as (content & Hsrc & ->).
    destruct (decide (dest = pagesPath)) as [Heq|Hne].
    + rewrite (pathExists_file _ pagesPath content) by (cbn; rewrite Heq; apply lookup_insert_eq).
      unfold copyFile. cbn. rewrite <- Heq, lookup_insert_eq. f_equal.
      apply FileSystem_eq; [cbn; apply insert_insert_eq|done].
    + assert (pathExists {| files := <[dest:=content]> (files fs); dirs := dirs fs |} pagesPath
              = false) as ->.
      { unfold pathExists in *. cbn. by rewrite lookup_insert_ne. }
      rewrite (pathExists_file _ appPath content).
      * apply (copyFile_again _ _ _ _ Hcopy).
      * cbn. destruct (decide (dest = appPath)) as [->|Hne'];
          [apply lookup_insert_eq|by rewrite lookup_insert_ne].
Qed.

Lemma union_again (A B d : gset string) : B ∪ (A ∪ (B ∪ (A ∪ d))) = B ∪ (A ∪ d).
Proof. clear -A B d. set_solver. Qed.

Lemma union_twice (A d : gset string) : A ∪ (A ∪ d) = A ∪ d.
Proof. clear -A d. set_solver. Qed.

Lemma insert_pair_again (F : gmap string string) (hd dd h j : string) :
  <[dd:=j]> (<[hd:=h]> (<[dd:=j]> (<[hd:=h]> F))) = <[dd:=j]> (<[hd:=h]> F).
Proof.
  apply map_eq. intros k.
  destruct (decide (dd = k)) as [->|Hdd]; [by rewrite !lookup_insert_eq|].
  rewrite (lookup_insert_ne (<[hd:=h]> (<[dd:=j]> (<[hd:=h]> F)))) by done.
  rewrite (lookup_insert_ne (<[hd:=h]> F) dd) by done.
  destruct (decide (hd = k)) as [->|Hhd]; [by rewrite !lookup_insert_eq|].
  rewrite (lookup_insert_ne (<[dd:=j]> (<[hd:=h]> F))) by done.
  by rewrite (lookup_insert_ne (<[hd:=h]> F) dd) by done.
Qed.

(** X19: exporting a route is idempotent as long as the build files it reads
    are not the output files it writes: run again on its own result, the loop
    body succeeds and leaves that result as it is. *)
Theorem X19_export_route_idempotent sourceDir distDir destDir matchers m path route fs fs' :
  let contentDist :=
    join [sourceDir; distDir; "server";
          if endsWith (dataRoute route) ".rsc" then "app" else "pages"] in
  exportRoute sourceDir distDir destDir matchers m path route fs = Ok fs' ->
  join [contentDist; htmlPath path] <> join [destDir; htmlPath path] ->
  join [contentDist; htmlPath path] <> join [destDir; dataRoute route] ->
  join [contentDist; dataPath path] <> join [destDir; htmlPath path] ->
  join [contentDist; dataPath path] <> join [destDir; dataRoute route] ->
  exportRoute sourceDir distDir destDir matchers m path route fs' = Ok fs'.
Proof.
  intros contentDist.
  destruct (skipsRoute matchers m path route) eqn:Hskip.
  { rewrite !(exportRoute_skipped _ _ _ _ _ _ _ _ Hskip). by intros [= <-]. }
  rewrite !(exportRoute_copied _ _ _ _ _ _ _ _ Hskip). cbv zeta. fold contentDist.
  set (htmlSrc := join [contentDist; htmlPath path]).
  set (dataSrc := join [contentDist; dataPath path]).
  set (htmlDest := join [destDir; htmlPath path]).
  set (dataDest := join [destDir; dataRoute route]).
  rewrite !mkdir_Ok. cbn [mbind result_bind].
  destruct (copyFile htmlSrc htmlDest _) as [fs2|e] eqn:Hhtml; cbn [mbind result_bind]; [|done].
  apply copyFile_source in Hhtml as (html & Hsrc1 & ->). cbn in Hsrc1.
  destruct (endsWith (dataRoute route) ".rsc"); cbn [negb].
  - intros [= <-] H1 _ _ _. cbn.
    erewrite copyFile_Ok by (cbn; rewrite lookup_insert_ne by done; exact Hsrc1).
    cbn. f_equal. apply FileSystem_eq; cbn; [apply insert_insert_eq|apply union_twice].
  - rewrite mkdir_Ok. cbn [mbind result_bind]. intros Hdata H1 H2 H3 H4.
    apply copyFile_source in Hdata as (json & Hsrc2 & ->). cbn in Hsrc2.
    rewrite lookup_insert_ne in Hsrc2 by done.
    erewrite copyFile_Ok by (cbn; rewrite !lookup_insert_ne by done; exact Hsrc1).
    cbn [mbind result_bind]. rewrite mkdir_Ok. cbn [mbind result_bind].
    erewrite copyFile_Ok by (cbn; rewrite !lookup_insert_ne by done; exact Hsrc2).
    f_equal. apply FileSystem_eq; cbn; [apply insert_pair_again|apply union_again].
Qed.
End Adapter.

(** ** The theorems on the sample build outputs *)

Lemma C1_witness :
  exists run,
    build Sample.supported_header Sample.supported_redirect Sample.supported_rewrite
          Sample.clean false Sample.output = Ok run
    /\ reasonsForBackend run
       = ["use of revalidate /"; "non-static route /about"; "use of advanced headers";
          "use of advanced rewrites"]
    /\ (wantsBackend (returned run) = true <-> reasonsForBackend run <> [])
    /\ (wantsBackend (returned run) = false <-> reasonsForBackend run = []).
Proof.
  eexists. split; [reflexivity|]. split; [vm_compute; reflexivity|].
  apply (C1_wantsBackend_iff_reasons Sample.supported_header Sample.supported_redirect
           Sample.supported_rewrite Sample.clean false Sample.output).
  reflexivity.
Defined.

(** C2, as the claim states it, fails: with [index.html] in both build
    locations, the loop leaves the pages one in the output directory. *)
Lemma C2_counterexample :
  ~ (forall sourceDir distDir destDir fs fs' file inPages inApp,
       file ∈ defaultHtmlFiles ->
       files fs !! join [sourceDir; distDir; "server"; "pages"; file] = Some inPages ->
       files fs !! join [sourceDir; distDir; "server"; "app"; file] = Some inApp ->
       for_each defaultHtmlFiles (copyDefaultHtml sourceDir distDir destDir) fs = Ok fs' ->
       files fs' !! join [destDir; file] = Some inApp).
Proof.
  intros Hclaim.
  destruct (for_each defaultHtmlFiles (copyDefaultHtml "/app" ".next" "/out")
              Sample.bothLocations) as [fs'|e] eqn:Hloop; [|vm_compute in Hloop; discriminate].
  specialize (Hclaim "/app" ".next" "/out" Sample.bothLocations fs' "index.html"
                "<html>pages</html>" "<html>app</html>").
  assert (Hout : files fs' !! "/out/index.html" = Some "<html>pages</html>").
  { vm_compute in Hloop. injection Hloop as <-. vm_compute. reflexivity. }
  change (join ["/out"; "index.html"]) with "/out/index.html" in Hclaim.
  rewrite Hout in Hclaim.
  assert (Some "<html>pages</html>" = Some "<html>app</html>") as [=].
  apply Hclaim; [compute_done|vm_compute; reflexivity|vm_compute; reflexivity|exact Hloop].
Qed.

Lemma C2_witness :
  files Sample.bothLocations !! join ["/app"; ".next"; "server"; "pages"; "index.html"]
  = Some "<html>pages</html>"
  /\ files Sample.bothLocations !! join ["/app"; ".next"; "server"; "app"; "index.html"]
     = Some "<html>app</html>"
  /\ exists fs',
       copyDefaultHtml "/app" ".next" "/out" "index.html" Sample.bothLocations = Ok fs'
       /\ files fs' !! join ["/out"; "index.html"] = Some "<html>pages</html>"
       /\ (forall other, other <> join ["/out"; "index.html"] ->
                         files fs' !! other = files Sample.bothLocations !! other).
Proof.
  split; [vm_compute; reflexivity|]. split; [vm_compute; reflexivity|].
  apply (proj1 (C2_default_html_prefers_pages "/app" ".next" "/out" "index.html"
                  Sample.bothLocations)).
  vm_compute. reflexivity.
Defined.

(** C3, as the claim states it, fails: a registered middleware without any
    matcher is enough for the middleware reason. *)
Lemma C3_counterexample :
  ~ (forall out run mm,
       build Sample.supported_header Sample.supported_redirect Sample.supported_rewrite
             Sample.clean false out = Ok run ->
       middleware_manifest_json out = Content mm ->
       ("use of Next middleware" ∈ reasonsForBackend run
        <-> exists name info, (name, info) ∈ middleware mm /\ matchers info <> [])).
Proof.
  intros Hclaim.
  destruct (Hclaim Sample.outputWithMiddleware _ Sample.middlewareWithoutMatchers
              eq_refl eq_refl) as [Hadded _].
  destruct Hadded as (name & info & Hin & Hmatchers).
  - vm_compute. by left.
  - apply list_elem_of_singleton in Hin as [= _ ->]. by apply Hmatchers.
Qed.

Lemma C3_witness :
  exists run,
    build Sample.supported_header Sample.supported_redirect Sample.supported_rewrite
          Sample.clean false Sample.outputWithMiddleware = Ok run
    /\ middleware_manifest_json Sample.outputWithMiddleware
       = Content Sample.middlewareWithoutMatchers
    /\ reasonsForBackend run = ["use of Next middleware"]
    /\ ("use of Next middleware" ∈ reasonsForBackend run
        <-> middleware Sample.middlewareWithoutMatchers <> [])
    /\ occurrences "use of Next middleware" (reasonsForBackend run) <= 1.
Proof.
  eexists. split; [reflexivity|]. split; [reflexivity|]. split; [vm_compute; reflexivity|].
  apply (C3_middleware_reason_iff_registered Sample.supported_header
           Sample.supported_redirect Sample.supported_rewrite Sample.clean false
           Sample.outputWithMiddleware); reflexivity.
Defined.

(** C5, as the claim states it, fails: the marker is set and the images
    manifest does not disable the optimization, it is silent about it, and no
    reason is added. *)
Lemma C5_counterexample :
  ~ (forall out run em im,
       build Sample.supported_header Sample.supported_redirect Sample.supported_rewrite
             Sample.clean false out = Ok run ->
       export_marker_json out = Content em ->
       images_manifest_json out = Content im ->
       ("use of Next Image Optimization" ∈ reasonsForBackend run
        <-> truthy_bool (isNextImageImported em) = true
            /\ unoptimized (images im) <> Some true)).
Proof.
  intros Hclaim.
  destruct (Hclaim Sample.outputWithImages _ _ _ eq_refl eq_refl eq_refl) as [_ Hadded].
  assert (Hin : "use of Next Image Optimization"
                ∈ @nil string) by (apply Hadded; split; [reflexivity|discriminate]).
  by apply elem_of_nil in Hin.
Qed.

Lemma C5_witness :
  exists run,
    build Sample.supported_header Sample.supported_redirect Sample.supported_rewrite
          Sample.clean false
          (Sample.staticOutput (Content {| middleware := [] |})
             {| isNextImageImported := Some true |}
             (Content {| images := {| unoptimized := Some false |} |})) = Ok run
    /\ reasonsForBackend run = ["use of Next Image Optimization"]
    /\ ("use of Next Image Optimization" ∈ reasonsForBackend run
        <-> truthy_bool (Some true) = true
            /\ exists im, Content {| images := {| unoptimized := Some false |} |} = Content im
                          /\ unoptimized (images im) = Some false).
Proof.
  eexists. split; [reflexivity|]. split; [vm_compute; reflexivity|].
  apply (C5_image_reason_iff_unoptimized_false Sample.supported_header
           Sample.supported_redirect Sample.supported_rewrite Sample.clean false
           (Sample.staticOutput (Content {| middleware := [] |})
              {| isNextImageImported := Some true |}
              (Content {| images := {| unoptimized := Some false |} |}))
           _ {| isNextImageImported := Some true |}); reflexivity.
Defined.

Lemma C6_witness :
  exists run,
    build Sample.supported_header Sample.supported_redirect Sample.supported_rewrite
          Sample.clean false Sample.output = Ok run
    /\ routes_manifest_json Sample.output = Content Sample.routesManifest
    /\ rewrites Sample.routesManifest
       = Some (PhasedRewrites None (Some [Sample.rewrite "/old" "/new"]) None)
    /\ forallb Sample.supported_rewrite [Sample.rewrite "/old" "/new"] = true
    /\ occurrences "use of advanced rewrites" (reasonsForBackend run) = 1.
Proof.
  eexists. split; [reflexivity|]. do 3 (split; [reflexivity|]).
  apply (proj2 (C6_later_phases_one_reason Sample.supported_header Sample.supported_redirect
                  Sample.supported_rewrite Sample.clean false Sample.output _
                  Sample.routesManifest eq_refl eq_refl)
               None (Some [Sample.rewrite "/old" "/new"]) None);
    [reflexivity|left; discriminate].
Defined.

Lemma C7_witness :
  exists run,
    build Sample.supported_header Sample.supported_redirect Sample.supported_rewrite
          Sample.clean false Sample.output = Ok run
    /\ "/about" ∈ keys Sample.pagesManifest
    /\ occurrences "non-static route /about" (reasonsForBackend run) = 1
    /\ wantsBackend (returned run) = true.
Proof.
  eexists. split; [reflexivity|]. split; [compute_done|].
  apply (C7_unrendered_page_reason Sample.supported_header Sample.supported_redirect
           Sample.supported_rewrite Sample.clean false Sample.output _
           Sample.prerenderManifest Sample.pagesManifest "/about");
    first [reflexivity|compute_done].
Defined.



Lemma C9_witness :
  exists run,
    build Sample.supported_header Sample.supported_redirect Sample.supported_rewrite
          Sample.clean false Sample.output = Ok run
    /\ br_headers (returned run)
       = [ {| hh_source := "/a"; hh_headers := [("x-frame-options", "DENY")] |};
           {| hh_source := "/c"; hh_headers := [("x-frame-options", "DENY")] |} ]
    /\ br_headers (returned run)
         `sublist_of` (toHostingHeader Sample.clean <$> nextJsHeaders Sample.routesManifest)
    /\ br_rewrites (returned run) = [].
Proof.
  eexists. split; [reflexivity|]. split; [vm_compute; reflexivity|].
  destruct (C9_emitted_rules_are_subsequences Sample.supported_header
              Sample.supported_redirect Sample.supported_rewrite Sample.clean false
              Sample.output _ Sample.routesManifest eq_refl eq_refl)
    as ((kept & _ & _ & _ & Hsub) & _ & _).
  split; [exact Hsub|vm_compute; reflexivity].
Defined.


Lemma C10_witness :
  parts "/blog/first-post" = ["blog"; "first-post"]
  /\ htmlPath "/blog/first-post" = "blog/first-post.html"
  /\ dataPath "/blog/first-post" = "blog/first-post.json"
  /\ htmlPath "/" = "index.html"
  /\ dataPath "/" = "index.json".
Proof.
  destruct (C10_route_file_names Sample.supported_header Sample.supported_redirect
              Sample.supported_rewrite Sample.regexp_test)
    as ((Hhtml & Hdata & _) & _ & Hparts & _).
  split; [reflexivity|].
  destruct (Hparts "/blog/first-post") as [H1 H2]; [discriminate| |].
  { intros seg Hin. apply elem_of_cons in Hin as [->|Hin]; [by split|].
    apply list_elem_of_singleton in Hin as ->. by split. }
  split; [rewrite H1; reflexivity|]. split; [rewrite H2; reflexivity|].
  split; [exact Hhtml|exact Hdata].
Defined.

(** ** The debug log file *)

Lemma firstAvailable_Some openSync cwd names logFilename :
  LogFile.firstAvailable openSync cwd names = Some logFilename
  <-> exists before c after,
        names = before ++ c :: after
        /\ logFilename = join [cwd; c]
        /\ (openSync logFilename = LogFile.Opened \/ openSync logFilename = LogFile.NoEntry)
        /\ forall blocked, blocked ∈ before ->
             exists code, openSync (join [cwd; blocked]) = LogFile.OtherError code.
Proof.
  revert logFilename. induction names as [|c names IH]; intros logFilename; cbn.
  - split; [done|]. intros (before & c & after & Hnames & _). by destruct before.
  - destruct (openSync (join [cwd; c])) as [| |code] eqn:Hopen.
    + split.
      * intros [= <-]. exists [], c, names. repeat split; auto.
        intros blocked Hin. by apply elem_of_nil in Hin.
      * intros ([|b before] & c' & after & Hnames & -> & Hok & Hblocked).
        -- by injection Hnames as -> ->.
        -- injection Hnames as -> ->.
           destruct (Hblocked b (list_elem_of_here _ _)) as [code Hcode]. congruence.
    + split.
      * intros [= <-]. exists [], c, names. repeat split; auto.
        intros blocked Hin. by apply elem_of_nil in Hin.
      * intros ([|b before] & c' & after & Hnames & -> & Hok & Hblocked).
        -- by injection Hnames as -> ->.
        -- injection Hnames as -> ->.
           destruct (Hblocked b (list_elem_of_here _ _)) as [code Hcode]. congruence.
    + rewrite IH. split.
      * intros (before & c' & after & -> & -> & Hok & Hblocked).
        exists (c :: before), c', after. repeat split; [done|].
        intros blocked [->|Hin]%elem_of_cons; [by exists code|by apply Hblocked].
      * intros ([|b before] & c' & after & Hnames & -> & Hok & Hblocked).
        -- injection Hnames as -> ->. destruct Hok; congruence.
        -- injection Hnames as -> ->. exists before, c', after. repeat split; [done|].
           intros blocked Hin. apply Hblocked. by right.
Qed.

Lemma firstAvailable_None openSync cwd names :
  LogFile.firstAvailable openSync cwd names = None
  <-> forall c, c ∈ names -> exists code, openSync (join [cwd; c]) = LogFile.OtherError code.
Proof.
  induction names as [|c names IH]; cbn.
  - split; [|done]. intros _ c Hin. by apply elem_of_nil in Hin.
  - destruct (openSync (join [cwd; c])) as [| |code] eqn:Hopen.
    + split; [done|]. intros H. destruct (H c (list_elem_of_here _ _)) as [? ?]. congruence.
    + split; [done|]. intros H. destruct (H c (list_elem_of_here _ _)) as [? ?]. congruence.
    + rewrite IH. split.
      * intros H c' [->|Hin]%elem_of_cons; [by exists code|by apply H].
      * intros H c' Hin. apply H. by right.
Qed.

(** X20: [findAvailableLogFile] returns the first of [firebase-debug.log],
    [firebase-debug.1.log], ..., [firebase-debug.9.log], in the working
    directory, that can be opened or does not exist yet; every name before it
    failed to open with another error. *)
Theorem X20_log_file_is_first_usable_candidate openSync cwd logFilename :
  LogFile.findAvailableLogFile openSync cwd = LogFile.Returned logFilename
  <-> exists before c after,
        LogFile.candidates = before ++ c :: after
        /\ logFilename = join [cwd; c]
        /\ (openSync logFilename = LogFile.Opened \/ openSync logFilename = LogFile.NoEntry)
        /\ forall blocked, blocked ∈ before ->
             exists code, openSync (join [cwd; blocked]) = LogFile.OtherError code.
Proof.
  rewrite <- firstAvailable_Some. unfold LogFile.findAvailableLogFile.
  destruct (LogFile.firstAvailable openSync cwd LogFile.candidates);
    split; intros [= ->]; done.
Qed.

(** X21: [findAvailableLogFile] throws exactly when each of its ten
    candidate names fails to open with an error other than [ENOENT]; the
    names are ten and distinct, and no further name is tried. *)
Theorem X21_log_file_throws_iff_all_ten_blocked openSync cwd :
  ((exists message, LogFile.findAvailableLogFile openSync cwd = LogFile.Thrown message)
   <-> forall c, c ∈ LogFile.candidates ->
         exists code, openSync (join [cwd; c]) = LogFile.OtherError code)
  /\ length LogFile.candidates = 10
  /\ NoDup LogFile.candidates.
Proof.
  split; [|split; [reflexivity|compute_done]].
  rewrite <- firstAvailable_None. unfold LogFile.findAvailableLogFile.
  destruct (LogFile.firstAvailable openSync cwd LogFile.candidates).
  - split; [by intros [? ?]|done].
  - split; [done|]. intros _. by eexists.
Qed.

Lemma X20_witness :
  LogFile.findAvailableLogFile LogFile.twoBlocked "/work"
  = LogFile.Returned "/work/firebase-debug.2.log"
  /\ exists before c after,
       LogFile.candidates = before ++ c :: after
       /\ "/work/firebase-debug.2.log" = join ["/work"; c]
       /\ (LogFile.twoBlocked "/work/firebase-debug.2.log" = LogFile.Opened
           \/ LogFile.twoBlocked "/work/firebase-debug.2.log" = LogFile.NoEntry)
       /\ forall blocked, blocked ∈ before ->
            exists code, LogFile.twoBlocked (join ["/work"; blocked]) = LogFile.OtherError code.
Proof.
  split; [reflexivity|].
  apply (proj1 (X20_log_file_is_first_usable_candidate LogFile.twoBlocked "/work"
                  "/work/firebase-debug.2.log")).
  reflexivity.
Defined.

Lemma X21_witness :
  exists message, LogFile.findAvailableLogFile LogFile.allBlocked "/work" = LogFile.Thrown message.
Proof.
  apply (proj2 (proj1 (X21_log_file_throws_iff_all_ten_blocked LogFile.allBlocked "/work"))).
  intros c _. by exists "EPERM".
Defined.

(** ** The exit handler *)

(** X22: the help line is shown on the second of two failures in a row: after
    a failed exit on a terminal, a failed exit on a terminal less than two
    minutes later prints an empty line and the help (when [cmd] is set),
    whatever the store held before; two minutes or more later it prints
    nothing. *)
Theorem X22_help_on_second_failure_within_two_minutes bold first second store :
  (0 < ExitHandler.effectiveCode first)%Z ->
  ExitHandler.isTTY first = true ->
  (0 < ExitHandler.effectiveCode second)%Z ->
  ExitHandler.isTTY second = true ->
  let afterFirst := (ExitHandler.onExit bold first store).1 in
  ExitHandler.lastError afterFirst = Some (ExitHandler.now first)
  /\ ((ExitHandler.now second - ExitHandler.now first < 120000)%Z ->
      ExitHandler.cmd second = true ->
      (ExitHandler.onExit bold second afterFirst).2 = [""; ExitHandler.help bold second])
  /\ ((120000 <= ExitHandler.now second - ExitHandler.now first)%Z ->
      (ExitHandler.onExit bold second afterFirst).2 = [])
  /\ (ExitHandler.cmd second = false ->
      (ExitHandler.onExit bold second afterFirst).2 = []).
Proof.
  intros Hfirst Htty1 Hsecond Htty2. unfold ExitHandler.onExit.
  apply Z.ltb_lt in Hfirst as Hf. apply Z.ltb_lt in Hsecond as Hs.
  rewrite Hf, Htty1, Hs, Htty2. cbn. split; [done|]. split; [|split].
  - intros Hclose ->. rewrite (proj2 (Z.ltb_lt _ _)) by lia. done.
  - intros Hfar. rewrite (proj2 (Z.ltb_ge _ _)) by lia. done.
  - intros ->. by destruct (Z.ltb (_ - _) _).
Qed.

(** X23: an exit that is a success, or not on a terminal, forgets the last
    error: the failure that follows it prints no help (the clock being past
    its first two minutes), however close in time it is to an earlier
    failure. *)
Theorem X23_success_resets_the_help bold between next store :
  ((ExitHandler.effectiveCode between <= 0)%Z \/ ExitHandler.isTTY between = false) ->
  (120000 <= ExitHandler.now next)%Z ->
  let afterBetween := (ExitHandler.onExit bold between store).1 in
  ExitHandler.lastError afterBetween = None
  /\ (ExitHandler.onExit bold between store).2 = []
  /\ (ExitHandler.onExit bold next afterBetween).2 = [].
Proof.
  intros Hbetween Hclock. unfold ExitHandler.onExit at 1 2.
  assert ((0 <? ExitHandler.effectiveCode between)%Z && ExitHandler.isTTY between = false)
    as ->.
  { destruct Hbetween as [Hcode| ->]; [|apply andb_false_r].
    by rewrite (proj2 (Z.ltb_ge _ _)) by lia. }
  cbn. split; [done|]. split; [done|]. unfold ExitHandler.onExit. cbn.
  destruct (_ && _); [|done]. cbn.
  rewrite (proj2 (Z.ltb_ge _ _)) by lia. done.
Qed.

(** X24: the debug log file survives the exit exactly when it was there and
    [DEBUG] is set or the exit code is 2 or more, where a non-zero
    [process.exitCode] takes the place of the code passed to the handler: an
    ordinary failure (code 1) removes the log like a success does, and the
    exit never creates one. *)
Theorem X24_debug_log_kept_on_crash_or_debug bold e store :
  ExitHandler.logFileExists (ExitHandler.onExit bold e store).1
  = ExitHandler.logFileExists store
    && (ExitHandler.debug e || (2 <=? ExitHandler.effectiveCode e)%Z)
  /\ (forall c, ExitHandler.exitCode e = Some c -> c <> 0%Z ->
                ExitHandler.effectiveCode e = c)
  /\ (ExitHandler.exitCode e = None \/ ExitHandler.exitCode e = Some 0%Z ->
      ExitHandler.effectiveCode e = ExitHandler.code e).
Proof.
  split; [|split].
  - unfold ExitHandler.onExit. cbv zeta.
    assert (Hlog : (if negb (ExitHandler.debug e) && (ExitHandler.effectiveCode e <? 2)%Z
                       && ExitHandler.logFileExists store
                    then false else ExitHandler.logFileExists store)
                   = ExitHandler.logFileExists store
                     && (ExitHandler.debug e || (2 <=? ExitHandler.effectiveCode e)%Z)).
    { destruct (Z.ltb_spec (ExitHandler.effectiveCode e) 2);
        destruct (Z.leb_spec 2 (ExitHandler.effectiveCode e)); try lia;
        by destruct (ExitHandler.debug e), (ExitHandler.logFileExists store). }
    by destruct (_ && ExitHandler.isTTY e).
  - intros c Hc Hnz. unfold ExitHandler.effectiveCode. rewrite Hc.
    by rewrite (proj2 (Z.eqb_neq _ _)).
  - unfold ExitHandler.effectiveCode. by intros [-> | ->].
Qed.

Lemma X22_witness :
  (ExitHandler.onExit ExitHandler.plain (ExitHandler.failure 1700000060000)
     (ExitHandler.onExit ExitHandler.plain (ExitHandler.failure 1700000000000)
        {| ExitHandler.lastError := None; ExitHandler.logFileExists := true |}).1).2
  = [""; "Having trouble? Try firebase [command] --help"].
Proof.
  apply (X22_help_on_second_failure_within_two_minutes ExitHandler.plain
           (ExitHandler.failure 1700000000000) (ExitHandler.failure 1700000060000)
           {| ExitHandler.lastError := None; ExitHandler.logFileExists := true |});
    reflexivity.
Defined.

Lemma X23_witness :
  (ExitHandler.onExit ExitHandler.plain (ExitHandler.failure 1700000060000)
     (ExitHandler.onExit ExitHandler.plain (ExitHandler.success 1700000030000)
        {| ExitHandler.lastError := Some 1700000000000%Z;
           ExitHandler.logFileExists := true |}).1).2
  = [].
Proof.
  apply (X23_success_resets_the_help ExitHandler.plain (ExitHandler.success 1700000030000)
           (ExitHandler.failure 1700000060000)
           {| ExitHandler.lastError := Some 1700000000000%Z;
              ExitHandler.logFileExists := true |}).
  - left. cbn. lia.
  - cbn. lia.
Defined.

(** ** The command table *)

(** X25: [getCommand] returns the first command registered under the name,
    and nothing exactly when no command has it: of two commands with one
    name the later one is never returned. *)
Theorem X25_getCommand_first_of_that_name commands name :
  (forall c, Client.getCommand commands name = Some c
     <-> exists before after,
           commands = before ++ c :: after
           /\ Client._name c = name
           /\ forall b, b ∈ before -> Client._name b <> name)
  /\ (Client.getCommand commands name = None
      <-> forall c, c ∈ commands -> Client._name c <> name).
Proof.
  induction commands as [|c0 commands [IHsome IHnone]]; cbn.
  - split.
    + intros c. split; [done|]. intros (before & after & H & _). by destruct before.
    + split; [|done]. intros _ c Hin. by apply elem_of_nil in Hin.
  - destruct (String.eqb_spec (Client._name c0) name) as [Heq|Hne]; split.
    + intros c. split.
      * intros [= <-]. exists [], commands. repeat split; [done|].
        intros b Hin. by apply elem_of_nil in Hin.
      * intros ([|b before] & after & Hcommands & Hname & Hbefore).
        -- by injection Hcommands as ->.
        -- injection Hcommands as -> ->. by destruct (Hbefore b (list_elem_of_here _ _)).
    + split; [done|]. intros H. by destruct (H c0 (list_elem_of_here _ _)).
    + intros c. rewrite IHsome. split.
      * intros (before & after & -> & Hname & Hbefore).
        exists (c0 :: before), after. repeat split; [done|].
        intros b [->|Hin]%elem_of_cons; [done|by apply Hbefore].
      * intros ([|b before] & after & Hcommands & Hname & Hbefore).
        -- injection Hcommands as ->. done.
        -- injection Hcommands as -> ->. exists before, after. repeat split; [done|].
           intros b' Hin. apply Hbefore. by right.
    + rewrite IHnone. split.
      * intros H c [->|Hin]%elem_of_cons; [done|by apply H].
      * intros H c Hin. apply H. by right.
Qed.

(** ** Preparing a Firestore deploy *)

Lemma rulesOf_cons c cs :
  Firestore.rulesOf (c :: cs)
  = (if Firestore.truthy_string (Firestore.rules c)
     then [{| Firestore.rules_databaseId := Firestore.database c;
              Firestore.rulesFile := default "" (Firestore.rules c) |}]
     else []) ++ Firestore.rulesOf cs.
Proof. unfold Firestore.rulesOf. cbn. by destruct (Firestore.truthy_string _). Qed.

Lemma indexFilesOf_cons c cs :
  Firestore.indexFilesOf (c :: cs)
  = (if Firestore.truthy_string (Firestore.indexes c)
     then [(Firestore.database c, default "" (Firestore.indexes c))]
     else []) ++ Firestore.indexFilesOf cs.
Proof. unfold Firestore.indexFilesOf. cbn. by destruct (Firestore.truthy_string _). Qed.

Lemma forEach_inr {Json RulesDeploy E : Type} (configPath : string -> string)
    (loadCJSON : string -> E + Json) (addFile : string -> RulesDeploy -> E + RulesDeploy)
    firestoreConfigs fc fc' :
  Firestore.forEach configPath loadCJSON addFile firestoreConfigs fc = inr fc' ->
  Firestore.fc_rules fc' = Firestore.fc_rules fc ++ Firestore.rulesOf firestoreConfigs
  /\ (fun ic => (Firestore.index_databaseId ic, Firestore.indexesFileName ic))
       <$> Firestore.fc_indexes fc'
     = ((fun ic => (Firestore.index_databaseId ic, Firestore.indexesFileName ic))
          <$> Firestore.fc_indexes fc) ++ Firestore.indexFilesOf firestoreConfigs
  /\ (forall ic, ic ∈ Firestore.fc_indexes fc' ->
        ic ∈ Firestore.fc_indexes fc
        \/ loadCJSON (configPath (Firestore.indexesFileName ic))
           = inr (Firestore.indexesSrc ic))
  /\ Firestore.addFiles addFile (Firestore.rulesFile <$> Firestore.rulesOf firestoreConfigs)
       (Firestore.fc_rulesDeploy fc)
     = inr (Firestore.fc_rulesDeploy fc').
Proof.
  revert fc. induction firestoreConfigs as [|c cs IH]; intros fc.
  - cbn. intros [= <-]. rewrite !app_nil_r. repeat split; auto.
  - rewrite rulesOf_cons, indexFilesOf_cons. cbn [Firestore.forEach].
    unfold Firestore.prepareConfig, Firestore.prepareIndexes, Firestore.prepareRules.
    destruct (Firestore.truthy_string (Firestore.indexes c)) eqn:Hi;
      destruct (Firestore.truthy_string (Firestore.rules c)) eqn:Hr; cbn.
    + destruct (loadCJSON _) as [e|src] eqn:Hload; [done|]. cbn.
      destruct (addFile _ _) as [e|rd] eqn:Hadd; [done|].
      intros (Hrules & Hidx & Hsrc & Hrd)%IH. cbn in *.
      rewrite Hrules, Hidx, fmap_app, <- !app_assoc. cbn.
      split; [done|split; [done|split; [|done]]].
      intros ic [Hin|Hin]%Hsrc; [|by right].
      apply elem_of_app in Hin as [Hin|Hin]; [by left|].
      apply list_elem_of_singleton in Hin as ->. by right.
    + destruct (loadCJSON _) as [e|src] eqn:Hload; [done|]. cbn.
      intros (Hrules & Hidx & Hsrc & Hrd)%IH. cbn in *.
      rewrite Hrules, Hidx, fmap_app, <- !app_assoc. cbn.
      split; [done|split; [done|split; [|done]]].
      intros ic [Hin|Hin]%Hsrc; [|by right].
      apply elem_of_app in Hin as [Hin|Hin]; [by left|].
      apply list_elem_of_singleton in Hin as ->. by right.
    + destruct (addFile _ _) as [e|rd] eqn:Hadd; [done|].
      intros (Hrules & Hidx & Hsrc & Hrd)%IH. cbn in *.
      rewrite Hrules, Hidx, <- !app_assoc. cbn.
      repeat split; done.
    + intros (Hrules & Hidx & Hsrc & Hrd)%IH. repeat split; done.
Qed.

Lemma prepare_inr {Json RulesDeploy E : Type} (configPath : string -> string)
    (loadCJSON : string -> E + Json) (addFile : string -> RulesDeploy -> E + RulesDeploy)
    (compile : RulesDeploy -> E + RulesDeploy)
    only firestoreConfigs rulesDeploy context context' :
  firestoreConfigs <> [] ->
  Firestore.prepare configPath loadCJSON addFile compile only (Some firestoreConfigs)
    rulesDeploy context = inr context' ->
  exists fc compiled,
    Firestore.forEach configPath loadCJSON addFile firestoreConfigs
      {| Firestore.fc_indexes := []; Firestore.fc_rules := [];
         Firestore.fc_rulesDeploy := rulesDeploy |} = inr fc
    /\ (if bool_decide (0 < length (Firestore.fc_rules fc))
        then compile (Firestore.fc_rulesDeploy fc)
        else inr (Firestore.fc_rulesDeploy fc)) = inr compiled
    /\ Firestore.firestore context'
       = Some {| Firestore.fc_indexes := Firestore.fc_indexes fc;
                 Firestore.fc_rules := Firestore.fc_rules fc;
                 Firestore.fc_rulesDeploy := compiled |}.
Proof.
  intros Hne. unfold Firestore.prepare.
  destruct firestoreConfigs as [|c cs]; [done|].
  destruct (if Firestore.truthy_string only then _ else _) as [fi fr].
  destruct (Firestore.forEach _ _ _ _ _) as [e|fc]; [done|].
  destruct (if bool_decide _ then _ else _) as [e|compiled] eqn:Hcompile; [done|].
  intros [= <-]. by exists fc, compiled.
Qed.

(** X26: when the preparation succeeds on a non-empty list of
    configurations, [context.firestore.rules] holds one entry for each
    configuration with a rules file and [context.firestore.indexes] one for
    each configuration with an indexes file, both in the configurations'
    order, and each index entry carries what [loadCJSON] returned for the
    path of its file; what the context held before is not kept. *)
Theorem X26_prepare_lists_follow_the_configurations {Json RulesDeploy E : Type}
    (configPath : string -> string)
    (loadCJSON : string -> E + Json) (addFile : string -> RulesDeploy -> E + RulesDeploy)
    (compile : RulesDeploy -> E + RulesDeploy)
    only firestoreConfigs rulesDeploy context context' :
  firestoreConfigs <> [] ->
  Firestore.prepare configPath loadCJSON addFile compile only (Some firestoreConfigs)
    rulesDeploy context = inr context' ->
  exists fc,
    Firestore.firestore context' = Some fc
    /\ Firestore.fc_rules fc = Firestore.rulesOf firestoreConfigs
    /\ (fun ic => (Firestore.index_databaseId ic, Firestore.indexesFileName ic))
         <$> Firestore.fc_indexes fc
       = Firestore.indexFilesOf firestoreConfigs
    /\ forall ic, ic ∈ Firestore.fc_indexes fc ->
         loadCJSON (configPath (Firestore.indexesFileName ic))
         = inr (Firestore.indexesSrc ic).
Proof.
  intros Hne (fc & compiled & Hfor & _ & Hctx)%prepare_inr; [|done].
  apply forEach_inr in Hfor as (Hrules & Hidx & Hsrc & _). cbn in *.
  eexists. split; [exact Hctx|]. cbn. repeat split; [done..|].
  intros ic [Hin|Hload]%Hsrc; [by apply elem_of_nil in Hin|done].
Qed.

(** X27: the rules deploy the context ends with has received every rules
    file of the configurations, in their order, and has then been compiled;
    with no rules file at all it is the new, untouched rules deploy and
    [compile] is not run. *)
Theorem X27_rules_files_added_then_compiled {Json RulesDeploy E : Type}
    (configPath : string -> string)
    (loadCJSON : string -> E + Json) (addFile : string -> RulesDeploy -> E + RulesDeploy)
    (compile : RulesDeploy -> E + RulesDeploy)
    only firestoreConfigs rulesDeploy context context' :
  firestoreConfigs <> [] ->
  Firestore.prepare configPath loadCJSON addFile compile only (Some firestoreConfigs)
    rulesDeploy context = inr context' ->
  exists fc,
    Firestore.firestore context' = Some fc
    /\ (Firestore.rulesOf firestoreConfigs = [] ->
        Firestore.fc_rulesDeploy fc = rulesDeploy)
    /\ (Firestore.rulesOf firestoreConfigs <> [] ->
        exists added,
          Firestore.addFiles addFile
            (Firestore.rulesFile <$> Firestore.rulesOf firestoreConfigs) rulesDeploy
          = inr added
          /\ compile added = inr (Firestore.fc_rulesDeploy fc)).
Proof.
  intros Hne (fc & compiled & Hfor & Hcompile & Hctx)%prepare_inr; [|done].
  apply forEach_inr in Hfor as (Hrules & _ & _ & Hadded). cbn in *.
  eexists. split; [exact Hctx|]. cbn. rewrite Hrules in Hcompile. split.
  - intros Hnil. rewrite Hnil in *. cbn in Hadded.
    rewrite bool_decide_eq_false_2 in Hcompile by (cbn; lia). congruence.
  - intros Hsome. exists (Firestore.fc_rulesDeploy fc). split; [done|].
    destruct (Firestore.rulesOf firestoreConfigs); [done|].
    rewrite bool_decide_eq_true_2 in Hcompile by (cbn; lia). done.
Qed.


(** X29: a configuration list that is missing or empty leaves
    [context.firestore] as it was, and the preparation cannot fail: nothing
    is loaded, added or compiled.  The two flags are set all the same, both
    to [true] when [--only] is absent or empty. *)
Theorem X29_nothing_prepared_without_configurations {Json RulesDeploy E : Type}
    (configPath : string -> string)
    (loadCJSON : string -> E + Json) (addFile : string -> RulesDeploy -> E + RulesDeploy)
    (compile : RulesDeploy -> E + RulesDeploy)
    only firestoreConfigs rulesDeploy context :
  firestoreConfigs = None \/ firestoreConfigs = Some [] ->
  exists prepared,
    Firestore.prepare configPath loadCJSON addFile compile only firestoreConfigs
      rulesDeploy context = inr prepared
    /\ Firestore.firestore prepared = Firestore.firestore context
    /\ (only = None \/ only = Some "" ->
        Firestore.firestoreIndexes prepared = Some true
        /\ Firestore.firestoreRules prepared = Some true).
Proof.
  intros Hnone. unfold Firestore.prepare.
  destruct (if Firestore.truthy_string only then _ else _) as [fi fr] eqn:Hflags.
  eexists. split; [by destruct Hnone as [-> | ->]|]. cbn. split; [done|].
  intros [-> | ->]; cbn in Hflags; by injection Hflags as <- <-.
Qed.

Lemma X26_witness :
  exists context',
    Firestore.prepare Firestore.sampleConfigPath Firestore.sampleLoad Firestore.sampleAddFile
      Firestore.sampleCompile (Some "firestore:indexes") (Some Firestore.sampleConfigs)
      ([], false) Firestore.emptyContext = inr context'
    /\ Firestore.fc_rules <$> Firestore.firestore context'
       = Some [{| Firestore.rules_databaseId := "(default)";
                  Firestore.rulesFile := "firestore.rules" |}].
Proof.
  eexists. split; [reflexivity|].
  destruct (X26_prepare_lists_follow_the_configurations Firestore.sampleConfigPath
              Firestore.sampleLoad Firestore.sampleAddFile Firestore.sampleCompile
              (Some "firestore:indexes") Firestore.sampleConfigs ([], false)
              Firestore.emptyContext _ ltac:(discriminate) eq_refl)
    as (fc & Hfc & Hrules & _).
  rewrite Hfc. cbn. rewrite Hrules. reflexivity.
Defined.

Lemma X27_witness :
  exists context',
    Firestore.prepare Firestore.sampleConfigPath Firestore.sampleLoad Firestore.sampleAddFile
      Firestore.sampleCompile None (Some Firestore.sampleConfigs)
      ([], false) Firestore.emptyContext = inr context'
    /\ exists fc,
         Firestore.firestore context' = Some fc
         /\ exists added,
              Firestore.addFiles Firestore.sampleAddFile ["firestore.rules"] ([], false)
              = inr added
              /\ Firestore.sampleCompile added = inr (Firestore.fc_rulesDeploy fc).
Proof.
  eexists. split; [reflexivity|].
  destruct (X27_rules_files_added_then_compiled Firestore.sampleConfigPath
              Firestore.sampleLoad Firestore.sampleAddFile Firestore.sampleCompile
              None Firestore.sampleConfigs ([], false)
              Firestore.emptyContext _ ltac:(discriminate) eq_refl)
    as (fc & Hfc & _ & Hadded).
  exists fc. split; [exact Hfc|]. apply Hadded. discriminate.
Defined.

Lemma X29_witness :
  exists prepared,
    Firestore.prepare Firestore.sampleConfigPath Firestore.sampleLoad Firestore.sampleAddFile
      Firestore.sampleCompile None (Some []) ([], false) Firestore.emptyContext
    = inr prepared
    /\ Firestore.firestore prepared = Firestore.firestore Firestore.emptyContext
    /\ Firestore.firestoreIndexes prepared = Some true
    /\ Firestore.firestoreRules prepared = Some true.
Proof.
  destruct (X29_nothing_prepared_without_configurations Firestore.sampleConfigPath
              Firestore.sampleLoad Firestore.sampleAddFile Firestore.sampleCompile
              None (Some []) ([], false) Firestore.emptyContext)
    as (prepared & Hrun & Hkept & Hflags); [by right|].
  exists prepared. split; [exact Hrun|]. split; [exact Hkept|]. apply Hflags. by left.
Defined.

(** ** The build analysis and the export on sample builds *)

Lemma X1_witness :
  exists run,
    build Sample.supported_header Sample.supported_redirect Sample.supported_rewrite
          Sample.clean false Fixture.staticSite = Ok run
    /\ wantsBackend (returned run) = false
    /\ reasonsForBackend run = []
    /\ console run = [].
Proof.
  eexists. split; [reflexivity|]. split; [vm_compute; reflexivity|].
  destruct (X1_static_iff_no_backend Sample.supported_header Sample.supported_redirect
              Sample.supported_rewrite Sample.clean false Fixture.staticSite _ eq_refl)
    as (mm & em & pm & pages & m & _ & _ & _ & _ & _ & _ & Hquiet).
  apply Hquiet. vm_compute. reflexivity.
Defined.

Lemma X2_witness :
  exists run,
    build Sample.supported_header Sample.supported_redirect Sample.supported_rewrite
          Sample.clean false Fixture.dynamicOutput = Ok run
    /\ reasonsForBackend run = ["use of Next app directory"; "use of fallback /posts/[id]"]
    /\ (("use of fallback " +:+ "/tags/[tag]") ∈ reasonsForBackend run
        <-> exists it,
              ("/tags/[tag]", it)
                ∈ [("/posts/[id]", {| fallback := FallbackPage "/posts/[id].html" |});
                   ("/tags/[tag]", {| fallback := FallbackFalse |})]
              /\ fallback it <> FallbackFalse).
Proof.
  eexists. split; [reflexivity|]. split; [vm_compute; reflexivity|].
  apply (proj1 (X2_fallback_reason_iff Sample.supported_header Sample.supported_redirect
                  Sample.supported_rewrite Sample.clean false Fixture.dynamicOutput _
                  {| routes := [];
                     dynamicRoutes :=
                       [("/posts/[id]", {| fallback := FallbackPage "/posts/[id].html" |});
                        ("/tags/[tag]", {| fallback := FallbackFalse |})] |}
                  "/tags/[tag]" eq_refl eq_refl)).
Defined.

Lemma X3_witness :
  exists run,
    build Sample.supported_header Sample.supported_redirect Sample.supported_rewrite
          Sample.clean false Fixture.dynamicOutput = Ok run
    /\ ("use of Next app directory" ∈ reasonsForBackend run
        <-> exists app,
              app_path_routes_manifest_json Fixture.dynamicOutput = Content app /\ app <> [])
    /\ occurrences "use of Next app directory" (reasonsForBackend run) <= 1.
Proof.
  eexists. split; [reflexivity|].
  apply (X3_app_directory_reason_iff Sample.supported_header Sample.supported_redirect
           Sample.supported_rewrite Sample.clean false Fixture.dynamicOutput _ eq_refl).
Defined.

Lemma X4_witness :
  exists run,
    build Sample.supported_header Sample.supported_redirect Sample.supported_rewrite
          Sample.clean false Sample.output = Ok run
    /\ length (br_headers (returned run)) = 2
    /\ length (nextJsHeaders Sample.routesManifest) = 3
    /\ ("use of advanced headers" ∈ reasonsForBackend run
        <-> length (br_headers (returned run)) < length (nextJsHeaders Sample.routesManifest)).
Proof.
  eexists. split; [reflexivity|]. split; [vm_compute; reflexivity|]. split; [reflexivity|].
  apply (proj1 (X4_rule_reason_iff_rule_dropped Sample.supported_header
                  Sample.supported_redirect Sample.supported_rewrite Sample.clean false
                  Sample.output _ Sample.routesManifest eq_refl eq_refl)).
Defined.

Lemma X5_witness :
  exists run,
    build Sample.supported_header Sample.supported_redirect Sample.supported_rewrite
          Sample.clean false Sample.output = Ok run
    /\ ("use of advanced rewrites" ∈ reasonsForBackend run
        <-> usesLaterPhases (nextJsRewrites Sample.routesManifest) = true
            \/ length (br_rewrites (returned run))
               < length (getNextjsRewritesToUse (nextJsRewrites Sample.routesManifest))).
Proof.
  eexists. split; [reflexivity|].
  apply (X5_rewrite_reason_iff Sample.supported_header Sample.supported_redirect
           Sample.supported_rewrite Sample.clean false Sample.output _
           Sample.routesManifest eq_refl eq_refl).
Defined.

Lemma X6_witness :
  exists run,
    build Sample.supported_header Sample.supported_redirect Sample.supported_rewrite
          Sample.clean false Sample.output = Ok run
    /\ exists mm em img app pm pages m,
         middleware_manifest_json Sample.output = Content mm
         /\ export_marker_json Sample.output = Content em
         /\ imageReasons em (images_manifest_json Sample.output) = Ok img
         /\ readAppPathRoutes (app_path_routes_manifest_json Sample.output) = Ok app
         /\ prerender_manifest_json Sample.output = Content pm
         /\ pages_manifest_json Sample.output = Content pages
         /\ routes_manifest_json Sample.output = Content m
         /\ reasonsForBackend run
            = middlewareReasons mm ++ img ++ appDirectoryReasons app
              ++ ((fun e : string * DynamicSsgRoute => "use of fallback " +:+ e.1)
                    <$> List.filter (fun e => hasFallback e.2) (dynamicRoutes pm))
              ++ ((fun e : string * SsgRoute => "use of revalidate " +:+ e.1)
                    <$> List.filter (fun e => truthy_number (initialRevalidateSeconds e.2))
                                    (routes pm))
              ++ ((fun key => "non-static route " +:+ key)
                    <$> List.filter (isUnrendered pm) (keys pages))
              ++ headerReasons Sample.supported_header m
              ++ redirectReasons Sample.supported_redirect m
              ++ rewriteReasons Sample.supported_rewrite m.
Proof.
  eexists. split; [reflexivity|].
  apply (X6_reasons_in_order Sample.supported_header Sample.supported_redirect
           Sample.supported_rewrite Sample.clean false Sample.output _ eq_refl).
Defined.


Lemma X9_witness :
  build Sample.supported_header Sample.supported_redirect Sample.supported_rewrite
        Sample.clean false (withImagesManifest Sample.output Malformed)
  = build Sample.supported_header Sample.supported_redirect Sample.supported_rewrite
          Sample.clean false Sample.output.
Proof.
  apply (X9_images_manifest_unread_without_marker Sample.supported_header
           Sample.supported_redirect Sample.supported_rewrite Sample.clean false
           Sample.output Malformed).
  intros em Hem. vm_compute in Hem. injection Hem as <-. reflexivity.
Defined.

Lemma X10_witness :
  exists run,
    build Sample.supported_header Sample.supported_redirect Sample.supported_rewrite
          Sample.clean false Sample.output = Ok run
    /\ headersRegexesNotSupportedByFirebase Sample.supported_header Sample.routesManifest
       = ["^/b$"]
    /\ length (br_headers (returned run))
       + length (headersRegexesNotSupportedByFirebase Sample.supported_header
                   Sample.routesManifest)
       = length (nextJsHeaders Sample.routesManifest).
Proof.
  eexists. split; [reflexivity|]. split; [vm_compute; reflexivity|].
  apply (proj1 (X10_rules_emitted_or_skipped_for Sample.supported_header
                  Sample.supported_redirect Sample.supported_rewrite Sample.clean false
                  Sample.output _ Sample.routesManifest eq_refl eq_refl)).
Defined.

Lemma X11_witness :
  exists run,
    build Sample.supported_header Sample.supported_redirect Sample.supported_rewrite
          Sample.clean false Fixture.staticSite = Ok run
    /\ wantsBackend (returned run) = false
    /\ skipsRoute Sample.supported_header Sample.supported_redirect Sample.supported_rewrite
         Sample.regexp_test [] Sample.plainRoutesManifest "/blog" Fixture.blogRoute = false.
Proof.
  eexists. split; [reflexivity|]. split; [vm_compute; reflexivity|].
  destruct (X11_static_build_exports_every_route Sample.supported_header
              Sample.supported_redirect Sample.supported_rewrite Sample.clean
              Sample.regexp_test false Fixture.staticSite _ eq_refl)
    as (mm & pm & m & Hmm & Hpm & Hm & Hroutes); [vm_compute; reflexivity|].
  vm_compute in Hmm, Hpm, Hm.
  injection Hmm as <-. injection Hpm as <-. injection Hm as <-.
  apply (Hroutes "/blog" Fixture.blogRoute). by constructor.
Defined.




Lemma X19_witness :
  exists fs',
    exportRoute Sample.supported_header Sample.supported_redirect Sample.supported_rewrite
      Sample.regexp_test "/app" ".next" "/out" [] Sample.plainRoutesManifest
      "/blog" Fixture.blogRoute Fixture.built = Ok fs'
    /\ exportRoute Sample.supported_header Sample.supported_redirect Sample.supported_rewrite
         Sample.regexp_test "/app" ".next" "/out" [] Sample.plainRoutesManifest
         "/blog" Fixture.blogRoute fs' = Ok fs'.
Proof.
  destruct (exportRoute Sample.supported_header Sample.supported_redirect
              Sample.supported_rewrite Sample.regexp_test "/app" ".next" "/out" []
              Sample.plainRoutesManifest "/blog" Fixture.blogRoute Fixture.built)
    as [fs'|e] eqn:Hrun; [|vm_compute in Hrun; discriminate].
  exists fs'. split; [reflexivity|].
  apply (X19_export_route_idempotent Sample.supported_header Sample.supported_redirect
           Sample.supported_rewrite Sample.regexp_test "/app" ".next" "/out" []
           Sample.plainRoutesManifest "/blog" Fixture.blogRoute Fixture.built fs' Hrun);
    vm_compute; discriminate.
Defined.
